(** * The meeting summarizer of [main.py], embedded in Rocq

    The program lists the models it can use, turns an audio file into a
    16 kHz mono WAV with ffmpeg, transcribes it with whisper.cpp and asks a
    local Ollama server for a summary.  Everything outside the interpreter
    (the shell, the HTTP server, the JSON decoder) is an oracle of the
    environment; the file system and the sequence of external actions are
    explicit state. *)

From Stdlib Require Import Ascii String ZArith QArith Lia.
From stdpp Require Import base list strings gmap sorting pretty.

Local Open Scope string_scope.
Local Open Scope list_scope.

(** ** Text

    A Python [str] is modelled by the bytes of its UTF-8 encoding.  Comparing
    two such byte strings position by position orders them as Python orders
    the code points. *)

Module Str.

Definition dquote : string := String "034"%char EmptyString.
Definition newline : string := String "010"%char EmptyString.

(** [s[:n]] and [s[n:]] for [0 <= n]. *)
Definition take (n : nat) (s : string) : string := String.substring 0 n s.
Definition drop (n : nat) (s : string) : string :=
  String.substring n (String.length s - n) s.

(** [s.startswith(p)] and [s.endswith(p)]. *)
Definition startswith (s p : string) : bool := String.prefix p s.
Definition endswith (s p : string) : bool :=
  String.prefix (String.rev p) (String.rev s).

(** [needle in hay]. *)
Fixpoint contains (needle hay : string) : bool :=
  String.prefix needle hay ||
  match hay with
  | EmptyString => false
  | String _ hay' => contains needle hay'
  end.

(** [s.rfind(c)] for a one-character [c]: the last index, or -1. *)
Fixpoint rfind_from (c : ascii) (s : string) (i last : Z) : Z :=
  match s with
  | EmptyString => last
  | String a s' =>
      rfind_from c s' (i + 1)%Z (if Ascii.eqb a c then i else last)
  end.
Definition rfind (c : ascii) (s : string) : Z := rfind_from c s 0%Z (-1)%Z.

(** [s.replace(old, new)]: the occurrences of [old] are found from left to
    right and do not overlap; [skip] counts the characters of the
    occurrence just replaced that are still to be passed over. *)
Fixpoint replace_from (old new : string) (skip : nat) (s : string) : string :=
  match s with
  | EmptyString => EmptyString
  | String c s' =>
      match skip with
      | S k => replace_from old new k s'
      | O =>
          if String.prefix old s
          then new +:+ replace_from old new (Nat.pred (String.length old)) s'
          else String c (replace_from old new 0 s')
      end
  end.
Fixpoint interleave (new s : string) : string :=
  match s with
  | EmptyString => new
  | String c s' => new +:+ String c (interleave new s')
  end.
Definition replace (old new s : string) : string :=
  match old with
  | EmptyString => interleave new s
  | String _ _ => replace_from old new 0 s
  end.

(** [s.lower()] on the letters A-Z.  A character outside ASCII is a
    sequence of bytes above 127, which this leaves alone; the program only
    asks whether one of its lower-case ASCII words occurs in the result. *)
Definition lower_char (c : ascii) : ascii :=
  let n := Ascii.N_of_ascii c in
  if (65 <=? n)%N && (n <=? 90)%N then Ascii.ascii_of_N (n + 32) else c.
Fixpoint lower (s : string) : string :=
  match s with
  | EmptyString => EmptyString
  | String c s' => String (lower_char c) (lower s')
  end.

(** The characters [str.isspace] accepts, each as the bytes of its UTF-8
    encoding: U+0009 to U+000D, U+001C to U+0020, U+0085, U+00A0, U+1680,
    U+2000 to U+200A, U+2028, U+2029, U+202F, U+205F and U+3000. *)
Definition bytes (codes : list N) : string :=
  fold_right (fun n s => String (Ascii.ascii_of_N n) s) EmptyString codes.
Definition whitespace : list string :=
  List.map bytes
    [[9]; [10]; [11]; [12]; [13]; [28]; [29]; [30]; [31]; [32];
     [194; 133]; [194; 160]; [225; 154; 128];
     [226; 128; 128]; [226; 128; 129]; [226; 128; 130]; [226; 128; 131];
     [226; 128; 132]; [226; 128; 133]; [226; 128; 134]; [226; 128; 135];
     [226; 128; 136]; [226; 128; 137]; [226; 128; 138];
     [226; 128; 168]; [226; 128; 169]; [226; 128; 175];
     [226; 129; 159]; [227; 128; 128]]%N.

(** The string without the characters of [ws] it starts with; [skip] as
    in [replace_from]. *)
Fixpoint strip_front (ws : list string) (skip : nat) (s : string) : string :=
  match s with
  | EmptyString => EmptyString
  | String c s' =>
      match skip with
      | S k => strip_front ws k s'
      | O =>
          match List.find (fun sp => String.prefix sp s) ws with
          | Some sp => strip_front ws (Nat.pred (String.length sp)) s'
          | None => s
          end
      end
  end.

(** [s.lstrip()], and [s.rstrip()], which is the same seen from the end. *)
Definition lstrip (s : string) : string := strip_front whitespace 0 s.
Definition rstrip (s : string) : string :=
  String.rev (strip_front (List.map String.rev whitespace) 0 (String.rev s)).
(** [s.strip()]. *)
Definition strip (s : string) : string := rstrip (lstrip s).

(** What [open(path, "r")] makes of the line ends when it reads: CR LF and
    a CR alone both become LF. *)
Fixpoint universal_newlines (s : string) : string :=
  match s with
  | EmptyString => EmptyString
  | String c s' =>
      if Ascii.eqb c "013"%char then
        String "010"%char
          match s' with
          | EmptyString => EmptyString
          | String c' s'' =>
              if Ascii.eqb c' "010"%char then universal_newlines s''
              else universal_newlines s'
          end
      else String c (universal_newlines s')
  end.

(** [bool(s)]. *)
Definition truthy (s : string) : bool :=
  match s with EmptyString => false | String _ _ => true end.

End Str.

(** ** [os.path.splitext] (posixpath)

    The extension starts at the last dot of the last path component, unless
    that component has only dots before it. *)

Module Path.

(** The [while] loop of [genericpath._splitext]: is some character of
    [p[i:i+n]] not a dot? *)
Fixpoint has_non_dot (p : string) (i n : nat) : bool :=
  match n with
  | O => false
  | S n' =>
      match String.get i p with
      | Some c => if Ascii.eqb c "."%char then has_non_dot p (S i) n' else true
      | None => true
      end
  end.

Definition splitext (p : string) : string * string :=
  let sepIndex := Str.rfind "/"%char p in
  let dotIndex := Str.rfind "."%char p in
  if (sepIndex <? dotIndex)%Z &&
     has_non_dot p (Z.to_nat (sepIndex + 1)) (Z.to_nat (dotIndex - (sepIndex + 1)))
  then (Str.take (Z.to_nat dotIndex) p, Str.drop (Z.to_nat dotIndex) p)
  else (p, EmptyString).

End Path.

(** ** Exceptions and results

    The exceptions the program can meet, each with what [str(e)] needs. *)

Inductive exn : Type :=
  | CalledProcessError (returncode : Z) (cmd : string)
  | ConnectionError (msg : string)
  | Timeout (msg : string)
  | ChunkedEncodingError (msg : string)
  | HTTPError (msg : string)
  | JSONDecodeError (msg : string)
  | UnicodeDecodeError (msg : string)
  | AttributeError (msg : string)
  | TypeError (msg : string)
  | KeyError (key : string)
  | FileNotFoundError (path : string)
  | OSError (msg : string).

Definition exn_str (e : exn) : string :=
  match e with
  | CalledProcessError rc cmd =>
      "Command '" +:+ cmd +:+ "' returned non-zero exit status " +:+ pretty rc +:+ "."
  | KeyError key => "'" +:+ key +:+ "'"
  | FileNotFoundError path =>
      "[Errno 2] No such file or directory: '" +:+ path +:+ "'"
  | ConnectionError msg | Timeout msg | ChunkedEncodingError msg | HTTPError msg
  | JSONDecodeError msg | UnicodeDecodeError msg | AttributeError msg
  | TypeError msg | OSError msg => msg
  end.

Inductive result (A : Type) : Type :=
  | Return (a : A)
  | Raise (e : exn).
Arguments Return {A} a.
Arguments Raise {A} e.

Definition result_bind {A B} (r : result A) (k : A -> result B) : result B :=
  match r with
  | Return a => k a
  | Raise e => Raise e
  end.

Notation "'let?' x ':=' r 'in' k" := (result_bind r (fun x => k))
  (at level 10, x pattern, r at level 200, k at level 200, only parsing).

Fixpoint result_map {A B} (f : A -> result B) (l : list A) : result (list B) :=
  match l with
  | [] => Return []
  | a :: l' => let? b := f a in let? bs := result_map f l' in Return (b :: bs)
  end.

(** ** Decoded JSON, with the Python operations the program applies to it

    An object is the list of its items, in order; the decoder hands out
    objects whose keys are distinct.  Numbers are the integers; the program
    asks of a number only whether it is zero. *)

#[local] Set Warnings "-register-all".
Inductive json : Type :=
  | JNull
  | JBool (b : bool)
  | JNum (n : Z)
  | JStr (s : string)
  | JArr (items : list json)
  | JObj (items : list (string * json)).

Module Py.

Definition type_name (v : json) : string :=
  match v with
  | JNull => "NoneType"
  | JBool _ => "bool"
  | JNum _ => "int"
  | JStr _ => "str"
  | JArr _ => "list"
  | JObj _ => "dict"
  end.

Fixpoint assoc (key : string) (items : list (string * json)) : option json :=
  match items with
  | [] => None
  | (k, v) :: items' => if String.eqb k key then Some v else assoc key items'
  end.

(** [data.get(key, default)]. *)
Definition get (data : json) (key : string) (default : json) : result json :=
  match data with
  | JObj items => Return (from_option id default (assoc key items))
  | _ => Raise (AttributeError
           ("'" +:+ type_name data +:+ "' object has no attribute 'get'"))
  end.

(** [m[key]] for a string [key]. *)
Definition getitem (m : json) (key : string) : result json :=
  match m with
  | JObj items =>
      match assoc key items with
      | Some v => Return v
      | None => Raise (KeyError key)
      end
  | JArr _ => Raise (TypeError "list indices must be integers or slices, not str")
  | JStr _ => Raise (TypeError "string indices must be integers, not 'str'")
  | _ => Raise (TypeError ("'" +:+ type_name m +:+ "' object is not subscriptable"))
  end.

(** What [for m in v] goes through.  A string yields its characters (here
    its bytes), an object its keys. *)
Definition iter (v : json) : result (list json) :=
  match v with
  | JArr items => Return items
  | JObj items => Return (List.map (fun kv => JStr (fst kv)) items)
  | JStr s =>
      Return (List.map (fun c => JStr (String c EmptyString)) (list_ascii_of_string s))
  | _ => Raise (TypeError ("'" +:+ type_name v +:+ "' object is not iterable"))
  end.

(** [summary += v] for a string [summary]. *)
Definition str_iadd (summary : string) (v : json) : result string :=
  match v with
  | JStr s => Return (summary +:+ s)
  | _ => Raise (TypeError
           ("can only concatenate str (not " +:+ Str.dquote +:+ type_name v
            +:+ Str.dquote +:+ ") to str"))
  end.

(** [bool(v)]. *)
Definition truthy (v : json) : bool :=
  match v with
  | JNull => false
  | JBool b => b
  | JNum n => negb (n =? 0)%Z
  | JStr s => Str.truthy s
  | JArr items => match items with [] => false | _ :: _ => true end
  | JObj items => match items with [] => false | _ :: _ => true end
  end.

(** [x or d] and [f"{x}"] for an optional string [x]. *)
Definition or_else (x : option string) (d : string) : string :=
  match x with
  | Some s => if Str.truthy s then s else d
  | None => d
  end.
Definition format (x : option string) : string :=
  match x with
  | Some s => s
  | None => "None"
  end.

End Py.

(** ** The world

    The regular files by path, the state of the path [WHISPER_MODELS_DIR],
    and the actions taken so far, oldest first.  A file either holds
    bytes that decode as text, or is one that opening or reading in text
    mode fails on, with the exception raised. *)

Inductive file : Type :=
  | TextFile (raw : string)
  | Unreadable (e : exn).

Inductive path_state : Type :=
  | Absent
  | Unlistable (e : exn)
  | Folder (entries : list string).

Inductive event : Type :=
  | Exec (cmd : string)
  | HttpGet (url : string)
  | HttpPost (url : string) (model : option string) (prompt : string)
  | Remove (path : string)
  | Progress (fraction : Q) (desc : string)
  | Print (text : string).

Record world : Type := World {
  files : gmap string file;
  models_dir : path_state;
  trace : list event
}.

(** An HTTP response: its status line, what [res.json()] gives, and the
    lines [iter_lines()] yields, after which the stream ends or breaks. *)
Record response : Type := Response {
  status_code : Z;
  reason : string;
  url : string;
  json_body : result json;
  body_lines : list string;
  read_error : option exn
}.

(** What the environment answers: the shell to a command line, given the
    files (exit status and the files afterwards); the HTTP server to a GET
    and to a POST of [{model, prompt}]; [json.loads(line.decode("utf-8"))]
    to a line. *)
Record env : Type := Env {
  shell : string -> gmap string file -> Z * gmap string file;
  requests_get : string -> result response;
  requests_post : string -> option string -> string -> result response;
  json_loads : string -> result json
}.

(** ** Computations: state passing with exceptions

    The world a computation leaves behind is kept when it raises. *)

Definition M (A : Type) : Type := world -> result A * world.

Definition ret {A} (a : A) : M A := fun w => (Return a, w).
Definition throw {A} (e : exn) : M A := fun w => (Raise e, w).
Definition bind {A B} (m : M A) (k : A -> M B) : M B :=
  fun w =>
    match m w with
    | (Return a, w') => k a w'
    | (Raise e, w') => (Raise e, w')
    end.
Definition lift {A} (r : result A) : M A := fun w => (r, w).
(** [try: m  except Exception as e: h e]. *)
Definition try_except {A} (m : M A) (h : exn -> M A) : M A :=
  fun w =>
    match m w with
    | (Return a, w') => (Return a, w')
    | (Raise e, w') => h e w'
    end.
Definition emit (ev : event) : M unit :=
  fun w => (Return tt, World (files w) (models_dir w) (trace w ++ [ev])).

Notation "'let!' x ':=' m 'in' k" := (bind m (fun x => k))
  (at level 10, x pattern, m at level 200, k at level 200, only parsing).
Notation "m ';;' k" := (bind m (fun _ => k))
  (at level 100, k at level 200, right associativity, only parsing).

(** ** Primitives of the standard library and of [requests] *)

Definition OLLAMA_URL : string := "http://localhost:11434".
Definition WHISPER_MODELS_DIR : string := "./whisper.cpp/models".

(** [os.path.exists(path)]. *)
Definition os_path_exists (path : string) : M bool :=
  fun w =>
    (Return (if String.eqb path WHISPER_MODELS_DIR
             then match models_dir w with Absent => false | _ => true end
             else bool_decide (is_Some (files w !! path))), w).

(** [os.listdir(path)]; a regular file is not a directory. *)
Definition os_listdir (path : string) : M (list string) :=
  fun w =>
    (if String.eqb path WHISPER_MODELS_DIR
     then match models_dir w with
          | Folder entries => Return entries
          | Unlistable e => Raise e
          | Absent => Raise (FileNotFoundError path)
          end
     else match files w !! path with
          | Some _ => Raise (OSError ("[Errno 20] Not a directory: '" +:+ path +:+ "'"))
          | None => Raise (FileNotFoundError path)
          end, w).

(** [os.remove(path)]. *)
Definition os_remove (path : string) : M unit :=
  fun w =>
    let w' := World (files w) (models_dir w) (trace w ++ [Remove path]) in
    match files w !! path with
    | Some _ => (Return tt, World (delete path (files w)) (models_dir w) (trace w'))
    | None => (Raise (FileNotFoundError path), w')
    end.

(** [with open(path, "r") as f: f.read()]. *)
Definition read_text (path : string) : M string :=
  fun w =>
    (match files w !! path with
     | Some (TextFile raw) => Return (Str.universal_newlines raw)
     | Some (Unreadable e) => Raise e
     | None => Raise (FileNotFoundError path)
     end, w).

(** [subprocess.run(cmd, shell=True, check=True)]. *)
Definition subprocess_run (E : env) (cmd : string) : M unit :=
  fun w =>
    let '(rc, fs) := shell E cmd (files w) in
    let w' := World fs (models_dir w) (trace w ++ [Exec cmd]) in
    if (rc =? 0)%Z then (Return tt, w') else (Raise (CalledProcessError rc cmd), w').

(** [print(text)]. *)
Definition print (text : string) : M unit := emit (Print text).

(** [progress(fraction, desc=desc)] of a [gr.Progress]. *)
Definition progress (fraction : Q) (desc : string) : M unit :=
  emit (Progress fraction desc).

(** [with gr.Progress(track_tqdm=True) as progress: body].  The class
    [gr.Progress] defines neither [__enter__] nor [__exit__]: once the
    object is made the statement raises, and [body] is not run.  The
    exception is the [TypeError] of Python 3.11 and later; before, it is
    an [AttributeError] raised at the same place. *)
Definition with_error : exn :=
  TypeError "'Progress' object does not support the context manager protocol".
Definition with_gr_Progress {A} (body : M A) : M A := throw with_error.

(** [resp.raise_for_status()]. *)
Definition raise_for_status (r : response) : result unit :=
  if (400 <=? status_code r)%Z && (status_code r <? 500)%Z then
    Raise (HTTPError (pretty (status_code r) +:+ " Client Error: " +:+ reason r
                      +:+ " for url: " +:+ url r))
  else if (500 <=? status_code r)%Z && (status_code r <? 600)%Z then
    Raise (HTTPError (pretty (status_code r) +:+ " Server Error: " +:+ reason r
                      +:+ " for url: " +:+ url r))
  else Return tt.

Definition http_get (E : env) (u : string) : M response :=
  emit (HttpGet u) ;; lift (requests_get E u).
Definition http_post (E : env) (u : string) (model : option string) (prompt : string)
  : M response :=
  emit (HttpPost u model prompt) ;; lift (requests_post E u model prompt).

(** [sorted(set(models))]: the elements of the set, in ascending order. *)
Definition sorted_set (models : list string) : list string :=
  merge_sort String.le (elements (list_to_set models : gset string)).

(** ** The program *)

(** [list_ollama_models] *)
Definition list_ollama_models (E : env) : M (list json) :=
  try_except
    (let! res := http_get E (OLLAMA_URL +:+ "/api/tags") in
     lift (raise_for_status res) ;;
     let! data := lift (json_body res) in
     let! models := lift (Py.get data "models" (JArr [])) in
     let! ms := lift (Py.iter models) in
     lift (result_map (fun m => Py.getitem m "model") ms))
    (fun e =>
       print ("⚠️ Could not retrieve Ollama models: " +:+ exn_str e) ;;
       ret []).

(** [list_whisper_models] *)
Definition valid : list string := ["base"; "small"; "medium"; "large"; "large-v3"].

Definition model_name (f : string) : string :=
  Str.replace "ggml-" "" (fst (Path.splitext f)).

Definition is_valid (name : string) : bool :=
  existsb (fun v => Str.contains v (Str.lower name)) valid.

(** One turn of the [for f in os.listdir(...)] loop. *)
Definition collect_model (models : list string) (f : string) : list string :=
  if Str.endswith f ".bin" then
    let name := model_name f in
    if is_valid name then models ++ [name] else models
  else models.

Definition list_whisper_models : M (list string) :=
  let! there := os_path_exists WHISPER_MODELS_DIR in
  if negb there then ret []
  else
    let! entries := os_listdir WHISPER_MODELS_DIR in
    let models := fold_left collect_model entries [] in
    ret (sorted_set models).

(** [preprocess_audio] *)
Definition clean_path (file_path : string) : string :=
  fst (Path.splitext file_path) +:+ "_clean.wav".

Definition ffmpeg_cmd (file_path : string) : string :=
  "ffmpeg -y -i " +:+ Str.dquote +:+ file_path +:+ Str.dquote
  +:+ " -ar 16000 -ac 1 " +:+ Str.dquote +:+ clean_path file_path +:+ Str.dquote.

Definition preprocess_audio (E : env) (file_path : string) : M string :=
  let output := clean_path file_path in
  subprocess_run E (ffmpeg_cmd file_path) ;;
  ret output.

(** [run_ollama_summary] *)
Definition make_prompt (context : option string) (text : string) : string :=
  Str.newline
  +:+ "You are a helpful AI that summarizes meeting transcripts." +:+ Str.newline
  +:+ Str.newline
  +:+ "Context: " +:+ Py.or_else context "No additional context provided." +:+ Str.newline
  +:+ Str.newline
  +:+ "Transcript:" +:+ Str.newline
  +:+ text +:+ Str.newline
  +:+ Str.newline
  +:+ "Write a clear and concise summary:" +:+ Str.newline.

(** The [for line in resp.iter_lines()] loop, from the lines still to come
    and what ends them; [break] leaves the rest of the stream unread. *)
Fixpoint consume (E : env) (summary : string) (lines : list string)
    (ending : option exn) : result string :=
  match lines with
  | [] =>
      match ending with
      | Some e => Raise e
      | None => Return summary
      end
  | line :: rest =>
      if negb (Str.truthy line) then consume E summary rest ending
      else
        let? data := json_loads E line in
        let? piece := Py.get data "response" (JStr "") in
        let? summary' := Py.str_iadd summary piece in
        let? done := Py.get data "done" JNull in
        if Py.truthy done then Return summary'
        else consume E summary' rest ending
  end.

Definition summary_failure (e : exn) : string :=
  "⚠️ Failed to generate summary: " +:+ exn_str e.

Definition run_ollama_summary (E : env) (model context : option string) (text : string)
  : M string :=
  let prompt := make_prompt context text in
  try_except
    (let! resp := http_post E (OLLAMA_URL +:+ "/api/generate") model prompt in
     lift (raise_for_status resp) ;;
     let! summary := lift (consume E "" (body_lines resp) (read_error resp)) in
     ret (Str.strip summary))
    (fun e => ret (summary_failure e)).

(** [transcribe_and_summarize] *)
Definition transcript_output : string := "transcript.txt".

Definition whisper_cmd (whisper_model : option string) (wav_file : string) : string :=
  "./whisper.cpp/main -m ./whisper.cpp/models/ggml-" +:+ Py.format whisper_model +:+ ".bin "
  +:+ "-f " +:+ Str.dquote +:+ wav_file +:+ Str.dquote
  +:+ " > " +:+ Str.dquote +:+ transcript_output +:+ Str.dquote.

Definition upload_message : string := "❌ Please upload an audio file.".

Definition transcribe_and_summarize (E : env)
    (audio_path context whisper_model llm_model : option string)
  : M (string * option string) :=
  match audio_path with
  | None => ret (upload_message, None)
  | Some path =>
      if negb (Str.truthy path) then ret (upload_message, None)
      else
        let! (wav_file, summary) :=
          with_gr_Progress
            (progress 0 "Preprocessing audio..." ;;
             let! wav_file := preprocess_audio E path in
             progress (4 # 10) "Running Whisper model..." ;;
             subprocess_run E (whisper_cmd whisper_model wav_file) ;;
             let! transcript := read_text transcript_output in
             progress (7 # 10) "Generating summary with Ollama..." ;;
             let! summary := run_ollama_summary E llm_model context transcript in
             progress 1 "Done!" ;;
             ret (wav_file, summary)) in
        os_remove wav_file ;;
        ret (summary, Some transcript_output)
  end.

(** [launch_ui], as far as the two dropdowns: the lists of models it asks
    for, Ollama's first, and the value each dropdown starts with,
    [models[0] if models else None].  The widgets and [app.launch] are
    outside the model.  A whisper model is a string.  An Ollama model is
    any decoded value, and Python's [None] is the value [JNull]: a list
    that starts with a null and an empty list give the same value. *)
Definition first_or_none (models : list string) : option string :=
  match models with
  | [] => None
  | m :: _ => Some m
  end.
Definition first_or_null (models : list json) : json :=
  match models with
  | [] => JNull
  | m :: _ => m
  end.

Record dropdowns : Type := Dropdowns {
  whisper_choices : list string;
  whisper_value : option string;
  llm_choices : list json;
  llm_value : json
}.

Definition launch_ui_dropdowns (E : env) : M dropdowns :=
  let! ollama_models := list_ollama_models E in
  let! whisper_models := list_whisper_models in
  ret (Dropdowns whisper_models (first_or_none whisper_models)
                 ollama_models (first_or_null ollama_models)).

(** * Properties *)

(** ** Checks of the text functions on sample inputs *)

Example splitext_model : Path.splitext "ggml-small.en.bin" = ("ggml-small.en", ".bin").
Proof. reflexivity. Qed.
Example splitext_in_dir : Path.splitext "/tmp/a.b/meeting" = ("/tmp/a.b/meeting", "").
Proof. reflexivity. Qed.
Example splitext_only_dots : Path.splitext "up/..bin" = ("up/..bin", "").
Proof. reflexivity. Qed.
Example splitext_hidden : Path.splitext "up/.x.bin" = ("up/.x", ".bin").
Proof. reflexivity. Qed.
Example replace_no_rescan : Str.replace "ggml-" "" "ggml-ggggml-ml-x" = "ggml-x".
Proof. reflexivity. Qed.
Example strip_both_ends :
  Str.strip (" " +:+ Str.newline +:+ "Hello you " +:+ Str.newline) = "Hello you".
Proof. reflexivity. Qed.
Example strip_wide_spaces :
  Str.strip (String "194" (String "160" ("Hi" +:+ String "226" (String "128" (String "131" " ")))))
  = "Hi".
Proof. reflexivity. Qed.
Example strip_keeps_inner : Str.strip "  a  b  " = "a  b".
Proof. reflexivity. Qed.
Example newlines_read :
  Str.universal_newlines ("a" +:+ String "013" (String "010" ("b" +:+ String "013" "c")))
  = "a" +:+ Str.newline +:+ "b" +:+ Str.newline +:+ "c".
Proof. reflexivity. Qed.
Example lower_mixed : Str.lower "Large-V3.EN" = "large-v3.en".
Proof. reflexivity. Qed.
Example endswith_bin :
  Str.endswith "notes.txt" ".bin" = false /\ Str.endswith "a.bin" ".bin" = true.
Proof. split; reflexivity. Qed.
Example model_name_small : model_name "ggml-small.en.bin" = "small.en".
Proof. reflexivity. Qed.

(** ** The whisper models *)

Section whisper_models.

(** A file of the directory contributes the name [x]. *)
Definition names_model (f x : string) : Prop :=
  Str.endswith f ".bin" = true /\ is_valid (model_name f) = true /\ x = model_name f.

Lemma elem_of_collect entries : forall models x,
  x ∈ fold_left collect_model entries models <->
  x ∈ models \/ exists f, f ∈ entries /\ names_model f x.
Proof.
  induction entries as [|f entries IH]; intros models x; simpl.
  - split; [by left|]. intros [?|(f & Hf & _)]; [done|]. by apply elem_of_nil in Hf.
  - rewrite IH. unfold collect_model, names_model.
    destruct (Str.endswith f ".bin") eqn:Hbin;
      [destruct (is_valid (model_name f)) eqn:Hval|].
    + rewrite elem_of_app, list_elem_of_singleton. split.
      * intros [[?| ->]|(g & Hg & ?)]; [by left| |].
        -- right. exists f. split; [by left | done].
        -- right. exists g. split; [by right | done].
      * intros [?|(g & Hg & Hn)]; [by left; left|].
        apply elem_of_cons in Hg as [->|Hg].
        -- left; right. by destruct Hn as (_ & _ & ->).
        -- right. by exists g.
    + split.
      * intros [?|(g & Hg & ?)]; [by left|]. right. exists g. split; [by right | done].
      * intros [?|(g & Hg & Hn)]; [by left|].
        apply elem_of_cons in Hg as [->|Hg]; [|right; by exists g].
        destruct Hn as (_ & Hv & _). congruence.
    + split.
      * intros [?|(g & Hg & ?)]; [by left|]. right. exists g. split; [by right | done].
      * intros [?|(g & Hg & Hn)]; [by left|].
        apply elem_of_cons in Hg as [->|Hg]; [|right; by exists g].
        destruct Hn as (Hb & _). congruence.
Qed.

Lemma sorted_set_sorted models : StronglySorted String.le (sorted_set models).
Proof. unfold sorted_set. apply StronglySorted_merge_sort; apply _. Qed.

Lemma sorted_set_NoDup models : NoDup (sorted_set models).
Proof.
  unfold sorted_set. rewrite merge_sort_Permutation. apply NoDup_elements.
Qed.

Lemma elem_of_sorted_set models x : x ∈ sorted_set models <-> x ∈ models.
Proof.
  unfold sorted_set.
  rewrite merge_sort_Permutation, elem_of_elements, elem_of_list_to_set. done.
Qed.

(** The result depends on which names were collected, not on the order or
    on how often. *)
Lemma sorted_set_ext l1 l2 :
  (forall x, x ∈ l1 <-> x ∈ l2) -> sorted_set l1 = sorted_set l2.
Proof.
  intros Hl. unfold sorted_set.
  replace (list_to_set l2 : gset string) with (list_to_set l1 : gset string); [done|].
  apply set_eq. intros x. rewrite !elem_of_list_to_set. apply Hl.
Qed.

Lemma list_whisper_models_Absent fs tr :
  list_whisper_models (World fs Absent tr) = (Return [], World fs Absent tr).
Proof. reflexivity. Qed.

Lemma list_whisper_models_Folder fs entries tr :
  list_whisper_models (World fs (Folder entries) tr) =
  (Return (sorted_set (fold_left collect_model entries [])),
   World fs (Folder entries) tr).
Proof. reflexivity. Qed.

Lemma list_whisper_models_Unlistable fs e tr :
  list_whisper_models (World fs (Unlistable e) tr) =
  (Raise e, World fs (Unlistable e) tr).
Proof. reflexivity. Qed.

End whisper_models.

(** C5.  [list_whisper_models] answers the empty list when the models
    directory does not exist.  When it is a directory, the answer is in
    ascending order of the strings, has no element twice, and holds exactly
    the names obtained from the entries ending in [.bin] whose name contains
    one of the allowed size tiers.  On the entries [ggml-small.en.bin],
    [ggml-large-v3.bin] and [notes.txt] the answer is [large-v3], [small.en]. *)
Theorem list_whisper_models_sorted_dedup :
  (forall fs tr,
     list_whisper_models (World fs Absent tr) = (Return [], World fs Absent tr)) /\
  (forall fs entries tr, exists names,
     list_whisper_models (World fs (Folder entries) tr) =
       (Return names, World fs (Folder entries) tr) /\
     StronglySorted String.le names /\
     NoDup names /\
     forall x, x ∈ names <-> exists f, f ∈ entries /\ names_model f x) /\
  (forall fs tr,
     fst (list_whisper_models
            (World fs (Folder ["ggml-small.en.bin"; "ggml-large-v3.bin"; "notes.txt"]) tr))
     = Return ["large-v3"; "small.en"]).
Proof.
  split; [|split].
  - apply list_whisper_models_Absent.
  - intros fs entries tr. eexists. split; [apply list_whisper_models_Folder|].
    split; [apply sorted_set_sorted|]. split; [apply sorted_set_NoDup|].
    intros x. rewrite elem_of_sorted_set, elem_of_collect. split.
    + intros [H|H]; [by apply elem_of_nil in H | done].
    + by right.
  - intros fs tr. rewrite list_whisper_models_Folder. simpl fst.
    vm_compute. reflexivity.
Qed.

(** C6.  A call of [list_whisper_models] leaves the world as it found it,
    so a second call right after it gives the same result; and when the
    directory is listed in another order, or with repetitions, but with the
    same entries, the result is still the same. *)
Theorem list_whisper_models_idempotent :
  (forall w,
     snd (list_whisper_models w) = w /\
     list_whisper_models (snd (list_whisper_models w)) = list_whisper_models w) /\
  (forall fs tr entries1 entries2,
     (forall f, f ∈ entries1 <-> f ∈ entries2) ->
     fst (list_whisper_models (World fs (Folder entries1) tr)) =
     fst (list_whisper_models (World fs (Folder entries2) tr))).
Proof.
  split.
  - intros [fs [|e|entries] tr].
    + by rewrite list_whisper_models_Absent.
    + by rewrite list_whisper_models_Unlistable.
    + by rewrite list_whisper_models_Folder.
  - intros fs tr entries1 entries2 Hsame.
    rewrite !list_whisper_models_Folder. simpl. f_equal.
    apply sorted_set_ext. intros x. rewrite !elem_of_collect.
    split; (intros [?|(f & Hf & ?)]; [by left|]); right; exists f;
      (split; [by apply Hsame | done]).
Qed.

Lemma list_whisper_models_idempotent_witness :
  fst (list_whisper_models
         (World ∅ (Folder ["ggml-base.bin"; "ggml-small.bin"]) [])) =
  fst (list_whisper_models
         (World ∅ (Folder ["ggml-small.bin"; "ggml-base.bin"; "ggml-small.bin"]) [])).
Proof.
  apply (proj2 list_whisper_models_idempotent).
  intros f. rewrite !elem_of_cons, !elem_of_nil. tauto.
Defined.

(** ** The Ollama models *)

Section ollama_models.

Variable E : env.

Definition tags_url : string := OLLAMA_URL +:+ "/api/tags".

(** The status is one [raise_for_status] rejects. *)
Definition error_status (r : response) : Prop :=
  (400 <= status_code r < 600)%Z.

Lemma raise_for_status_error r :
  error_status r -> exists msg, raise_for_status r = Raise (HTTPError msg).
Proof.
  unfold error_status, raise_for_status. intros [Hlo Hhi].
  destruct (Z.ltb_spec (status_code r) 500) as [H5|H5].
  - replace (400 <=? status_code r)%Z with true by (symmetry; by apply Z.leb_le).
    simpl. eauto.
  - replace (500 <=? status_code r)%Z with true by (symmetry; by apply Z.leb_le).
    replace (status_code r <? 600)%Z with true by (symmetry; by apply Z.ltb_lt).
    rewrite andb_false_r. simpl. eauto.
Qed.

Lemma raise_for_status_ok r :
  ~ error_status r -> raise_for_status r = Return tt.
Proof.
  unfold error_status, raise_for_status. intros Hok.
  destruct (Z.leb_spec 400 (status_code r)), (Z.ltb_spec (status_code r) 500),
    (Z.leb_spec 500 (status_code r)), (Z.ltb_spec (status_code r) 600);
    simpl; try reflexivity; lia.
Qed.

Lemma try_except_total {A} (m : M A) (h : exn -> M A) w :
  (forall e w1, exists a w2, h e w1 = (Return a, w2)) ->
  exists a w2, try_except m h w = (Return a, w2).
Proof.
  intros Hh. unfold try_except. destruct (m w) as [[a|e] w1]; eauto.
Qed.

Lemma list_ollama_models_total w :
  exists models w', list_ollama_models E w = (Return models, w').
Proof. apply try_except_total. intros e w1. by eexists _, _. Qed.

(** What is left in the trace when the request did not give a list. *)
Definition tags_warning (w : world) (e : exn) : world :=
  World (files w) (models_dir w)
    (trace w ++ [HttpGet tags_url]
             ++ [Print ("⚠️ Could not retrieve Ollama models: " +:+ exn_str e)]).

Lemma list_ollama_models_get_raises w e :
  requests_get E tags_url = Raise e ->
  list_ollama_models E w = (Return [], tags_warning w e).
Proof.
  intros Hget. unfold list_ollama_models, try_except, bind, http_get, emit, lift.
  simpl. fold tags_url. rewrite Hget. unfold tags_warning. simpl.
  by rewrite <- app_assoc.
Qed.

Lemma list_ollama_models_bad_status w r :
  requests_get E tags_url = Return r -> error_status r ->
  exists msg, list_ollama_models E w = (Return [], tags_warning w (HTTPError msg)).
Proof.
  intros Hget [msg Hst]%raise_for_status_error. exists msg.
  unfold list_ollama_models, try_except, bind, http_get, emit, lift.
  simpl. fold tags_url. rewrite Hget, Hst. unfold tags_warning. simpl.
  by rewrite <- app_assoc.
Qed.

Lemma result_map_model objs : forall vals,
  Forall2 (fun o v => Py.assoc "model" o = Some v) objs vals ->
  result_map (fun m => Py.getitem m "model") (List.map JObj objs) = Return vals.
Proof.
  induction objs as [|o objs IH]; intros vals Hall; inv Hall; [done|].
  simpl. match goal with H : Py.assoc _ _ = _ |- _ => rewrite H end.
  simpl. by erewrite IH.
Qed.

Lemma list_ollama_models_success w r items objs vals :
  requests_get E tags_url = Return r -> ~ error_status r ->
  json_body r = Return (JObj items) ->
  Py.assoc "models" items = Some (JArr (List.map JObj objs)) ->
  Forall2 (fun o v => Py.assoc "model" o = Some v) objs vals ->
  list_ollama_models E w =
    (Return vals, World (files w) (models_dir w) (trace w ++ [HttpGet tags_url])).
Proof.
  intros Hget Hst%raise_for_status_ok Hbody Hmodels Hall.
  unfold list_ollama_models, try_except, bind, http_get, emit, lift.
  simpl. fold tags_url. rewrite Hget, Hst, Hbody. simpl. rewrite Hmodels. simpl.
  by rewrite (result_map_model _ _ Hall).
Qed.

End ollama_models.

(** C9.  [list_ollama_models] never raises.  When the request raises
    (connection failure, timeout) or the answer has a status that
    [raise_for_status] rejects, it prints a warning and returns the empty
    list.  When the answer is accepted and its body is an object whose
    [models] is an array of objects that each have a [model], it returns
    those [model] values in order. *)
Theorem list_ollama_models_never_raises (E : env) (w : world) :
  (exists models w', list_ollama_models E w = (Return models, w')) /\
  (forall e, requests_get E tags_url = Raise e ->
     list_ollama_models E w = (Return [], tags_warning w e)) /\
  (forall r, requests_get E tags_url = Return r -> error_status r ->
     exists msg, list_ollama_models E w = (Return [], tags_warning w (HTTPError msg))) /\
  (forall r items objs vals,
     requests_get E tags_url = Return r -> ~ error_status r ->
     json_body r = Return (JObj items) ->
     Py.assoc "models" items = Some (JArr (List.map JObj objs)) ->
     Forall2 (fun o v => Py.assoc "model" o = Some v) objs vals ->
     fst (list_ollama_models E w) = Return vals).
Proof.
  split; [apply list_ollama_models_total|].
  split; [apply list_ollama_models_get_raises|].
  split; [apply list_ollama_models_bad_status|].
  intros r items objs vals Hget Hst Hbody Hmodels Hall.
  by erewrite list_ollama_models_success.
Qed.

(** ** The summary stream *)

Section summary_stream.

Variable E : env.

Definition generate_url : string := OLLAMA_URL +:+ "/api/generate".

(** The concatenation of the pieces, first to last. *)
Definition join (pieces : list string) : string :=
  fold_right String.append EmptyString pieces.

(** A line that decodes to an object carrying the text [piece] (an object
    without [response] carries the empty text) and whose [done], when
    there is one, is true or not as [done] says. *)
Definition is_fragment (line piece : string) (done : bool) : Prop :=
  Str.truthy line = true /\
  exists items,
    json_loads E line = Return (JObj items) /\
    from_option id (JStr "") (Py.assoc "response" items) = JStr piece /\
    Py.truthy (from_option id JNull (Py.assoc "done" items)) = done.

(** Lines that are empty or fragments that are not done, with the pieces
    of the fragments in order. *)
Inductive open_fragments : list string -> list string -> Prop :=
  | open_end : open_fragments [] []
  | open_empty lines pieces :
      open_fragments lines pieces ->
      open_fragments (EmptyString :: lines) pieces
  | open_fragment line piece lines pieces :
      is_fragment line piece false ->
      open_fragments lines pieces ->
      open_fragments (line :: lines) (piece :: pieces).

Lemma append_cons c s t : String c s +:+ t = String c (s +:+ t).
Proof. reflexivity. Qed.

Lemma append_nil_r s : s +:+ "" = s.
Proof. induction s as [|c s IH]; [done|]. by rewrite append_cons, IH. Qed.

Lemma append_assoc s t u : (s +:+ t) +:+ u = s +:+ t +:+ u.
Proof. induction s as [|c s IH]; [done|]. by rewrite !append_cons, IH. Qed.

Lemma join_app ps qs : join (ps ++ qs) = join ps +:+ join qs.
Proof.
  induction ps as [|p ps IH]; [done|].
  simpl. by rewrite IH, append_assoc.
Qed.

Lemma consume_empty summary rest ending :
  consume E summary (EmptyString :: rest) ending = consume E summary rest ending.
Proof. reflexivity. Qed.

Lemma consume_fragment summary line piece done rest ending :
  is_fragment line piece done ->
  consume E summary (line :: rest) ending =
    if done then Return (summary +:+ piece)
    else consume E (summary +:+ piece) rest ending.
Proof.
  intros (Hline & items & Hload & Hpiece & Hdone). simpl.
  rewrite Hline, Hload. simpl. rewrite Hpiece. simpl. by rewrite Hdone.
Qed.

Lemma consume_malformed summary line e rest ending :
  Str.truthy line = true -> json_loads E line = Raise e ->
  consume E summary (line :: rest) ending = Raise e.
Proof. intros Hline Hload. simpl. by rewrite Hline, Hload. Qed.

Lemma consume_open lines pieces :
  open_fragments lines pieces ->
  forall summary rest ending,
    consume E summary (lines ++ rest) ending =
    consume E (summary +:+ join pieces) rest ending.
Proof.
  induction 1 as [|lines pieces _ IH|line piece lines pieces Hfr _ IH];
    intros summary rest ending.
  - simpl. by rewrite append_nil_r.
  - rewrite <- List.app_comm_cons, consume_empty. apply IH.
  - rewrite <- List.app_comm_cons, (consume_fragment _ _ _ _ _ _ Hfr), IH.
    simpl. by rewrite append_assoc.
Qed.

(** Empty lines change nothing. *)
Lemma consume_filter lines : forall summary ending,
  consume E summary lines ending =
  consume E summary (List.filter Str.truthy lines) ending.
Proof.
  induction lines as [|line lines IH]; intros summary ending; [done|].
  simpl. destruct (Str.truthy line) eqn:Hline; simpl; [|apply IH].
  rewrite Hline. simpl.
  destruct (json_loads E line) as [data|e]; simpl; [|done].
  destruct (Py.get data "response" (JStr "")) as [piece|e]; simpl; [|done].
  destruct (Py.str_iadd summary piece) as [summary'|e]; simpl; [|done].
  destruct (Py.get data "done" JNull) as [flag|e]; simpl; [|done].
  destruct (Py.truthy flag); [done|apply IH].
Qed.

(** The world after the request: one POST more in the trace. *)
Definition posted (w : world) (model context : option string) (text : string) : world :=
  World (files w) (models_dir w)
    (trace w ++ [HttpPost generate_url model (make_prompt context text)]).

Definition summary_of (r : result string) : string :=
  match r with
  | Return summary => Str.strip summary
  | Raise e => summary_failure e
  end.

Lemma run_ollama_summary_post_raises model context text w e :
  requests_post E generate_url model (make_prompt context text) = Raise e ->
  run_ollama_summary E model context text w =
    (Return (summary_failure e), posted w model context text).
Proof.
  intros Hpost. unfold run_ollama_summary, try_except, bind, http_post, emit, lift.
  simpl. fold generate_url. by rewrite Hpost.
Qed.

Lemma run_ollama_summary_bad_status model context text w r :
  requests_post E generate_url model (make_prompt context text) = Return r ->
  error_status r ->
  exists msg, run_ollama_summary E model context text w =
    (Return (summary_failure (HTTPError msg)), posted w model context text).
Proof.
  intros Hpost [msg Hst]%raise_for_status_error. exists msg.
  unfold run_ollama_summary, try_except, bind, http_post, emit, lift.
  simpl. fold generate_url. by rewrite Hpost, Hst.
Qed.

Lemma run_ollama_summary_stream model context text w r :
  requests_post E generate_url model (make_prompt context text) = Return r ->
  ~ error_status r ->
  run_ollama_summary E model context text w =
    (Return (summary_of (consume E "" (body_lines r) (read_error r))),
     posted w model context text).
Proof.
  intros Hpost Hst%raise_for_status_ok.
  unfold run_ollama_summary, try_except, bind, http_post, emit, lift.
  simpl. fold generate_url. rewrite Hpost, Hst. simpl.
  by destruct (consume E "" (body_lines r) (read_error r)).
Qed.

(** Whatever the server does, the caller gets a string: this one. *)
Definition summary_text (model context : option string) (text : string) : string :=
  match requests_post E generate_url model (make_prompt context text) with
  | Raise e => summary_failure e
  | Return r =>
      match raise_for_status r with
      | Raise e => summary_failure e
      | Return _ => summary_of (consume E "" (body_lines r) (read_error r))
      end
  end.

Lemma run_ollama_summary_eq model context text w :
  run_ollama_summary E model context text w =
    (Return (summary_text model context text), posted w model context text).
Proof.
  unfold run_ollama_summary, summary_text, try_except, bind, http_post, emit, lift.
  simpl. fold generate_url.
  destruct (requests_post E generate_url model (make_prompt context text)) as [r|e];
    simpl; [|done].
  destruct (raise_for_status r); simpl; [|done].
  by destruct (consume E "" (body_lines r) (read_error r)).
Qed.

End summary_stream.

(** ** Concrete environments, to run the program on *)

Module Demo.

Definition quoted (s : string) : string := Str.dquote +:+ s +:+ Str.dquote.

(** The line [{"response":piece,"done":done}] and what it decodes to. *)
Definition fragment_line (piece : string) (done : bool) : string :=
  "{" +:+ quoted "response" +:+ ":" +:+ quoted piece +:+ ","
      +:+ quoted "done" +:+ ":" +:+ (if done then "true" else "false") +:+ "}".
Definition fragment_json (piece : string) (done : bool) : json :=
  JObj [("response", JStr piece); ("done", JBool done)].

(** A decoder that knows the three lines of the Hello stream and rejects
    every other line. *)
Definition loads (line : string) : result json :=
  if String.eqb line (fragment_line "Hel" false) then Return (fragment_json "Hel" false)
  else if String.eqb line (fragment_line "lo" false) then Return (fragment_json "lo" false)
  else if String.eqb line (fragment_line "" true) then Return (fragment_json "" true)
  else Raise (JSONDecodeError "Expecting value: line 1 column 1 (char 0)").

Definition hello_lines : list string :=
  [fragment_line "Hel" false; fragment_line "lo" false; fragment_line "" true].

Definition ok_response (lines : list string) (ending : option exn) : response :=
  Response 200 "OK" generate_url (Raise (JSONDecodeError "Extra data")) lines ending.

(** An audio file: bytes that do not decode as text. *)
Definition sound : file :=
  Unreadable (UnicodeDecodeError
    "'utf-8' codec can't decode byte 0xff in position 0: invalid start byte").

(** ffmpeg, run on [audio], leaves the normalized audio; whisper.cpp
    leaves the transcript and exits with [whisper_status]. *)
Definition shell (audio : string) (whisper_status : Z) (cmd : string)
    (fs : gmap string file) : Z * gmap string file :=
  if Str.startswith cmd "ffmpeg"
  then (0%Z, <[clean_path audio := sound]> fs)
  else (whisper_status, <["transcript.txt" := TextFile "Hello everyone."]> fs).

Definition tags_response : response :=
  Response 200 "OK" tags_url
    (Return (JObj [("models",
       JArr (List.map JObj [[("name", JStr "llama3:latest"); ("model", JStr "llama3:latest")];
                            [("name", JStr "mistral:7b"); ("model", JStr "mistral:7b")]]))]))
    [] None.

(** A server that streams [lines] and then ends as [ending] says. *)
Definition streaming (audio : string) (whisper_status : Z) (lines : list string)
    (ending : option exn) : env :=
  Env (shell audio whisper_status)
      (fun _ => Return tags_response)
      (fun _ _ _ => Return (ok_response lines ending))
      loads.

(** A server that is not there. *)
Definition offline (audio : string) (whisper_status : Z) : env :=
  Env (shell audio whisper_status)
      (fun _ => Raise (Timeout "Read timed out. (read timeout=10)"))
      (fun _ _ _ => Raise (ConnectionError "Connection refused"))
      loads.

Definition start : world :=
  World {["meeting.mp3" := sound]} Absent [].

End Demo.

Lemma list_ollama_models_never_raises_witness :
  fst (list_ollama_models (Demo.streaming "meeting.mp3" 0 [] None) Demo.start)
  = Return [JStr "llama3:latest"; JStr "mistral:7b"] /\
  fst (list_ollama_models (Demo.offline "meeting.mp3" 0) Demo.start) = Return [].
Proof.
  split.
  - assert (Hstatus : ~ error_status Demo.tags_response)
      by (unfold error_status; simpl; lia).
    apply (proj2 (proj2 (proj2 (list_ollama_models_never_raises
                                  (Demo.streaming "meeting.mp3" 0 [] None) Demo.start)))
             Demo.tags_response _ _ _ eq_refl Hstatus eq_refl eq_refl).
    repeat constructor.
  - by rewrite (proj1 (proj2 (list_ollama_models_never_raises
                                (Demo.offline "meeting.mp3" 0) Demo.start))
                  _ eq_refl).
Defined.

(** ** Trimming *)

Section trimming.

Lemma prefix_append s : forall rest, String.prefix s (s +:+ rest) = true.
Proof.
  induction s as [|c s IH]; intros rest; [by destruct rest|].
  rewrite append_cons. simpl. by destruct (ascii_dec c c).
Qed.

Lemma prefix_split p : forall s,
  String.prefix p s = true -> exists rest, s = p +:+ rest.
Proof.
  induction p as [|c p IH]; intros s Hp; [by exists s|].
  destruct s as [|d s]; simpl in Hp; [done|].
  destruct (ascii_dec c d) as [->|]; [|done].
  apply IH in Hp as [rest ->]. exists rest. by rewrite append_cons.
Qed.

Lemma prefix_longer p a r :
  String.prefix p a = true -> String.prefix p (a +:+ r) = true.
Proof.
  intros [rest ->]%prefix_split. rewrite append_assoc. apply prefix_append.
Qed.

Lemma length_append a : forall b,
  String.length (a +:+ b) = String.length a + String.length b.
Proof.
  induction a as [|c a IH]; intros b; [done|].
  rewrite append_cons. simpl. by rewrite IH.
Qed.

Lemma rev_app_append s : forall acc,
  String.rev_app s acc = String.rev_app s "" +:+ acc.
Proof.
  induction s as [|c s IH]; intros acc; [done|].
  simpl. rewrite (IH (String c acc)), (IH (String c "")), append_assoc.
  by rewrite append_cons.
Qed.

Lemma rev_cons c s : String.rev (String c s) = String.rev s +:+ String c "".
Proof. unfold String.rev. simpl. apply rev_app_append. Qed.

Lemma rev_append a : forall b,
  String.rev (a +:+ b) = String.rev b +:+ String.rev a.
Proof.
  induction a as [|c a IH]; intros b.
  - change (String.rev "") with "". by rewrite append_nil_r.
  - by rewrite append_cons, !rev_cons, IH, append_assoc.
Qed.

Lemma rev_rev s : String.rev (String.rev s) = s.
Proof.
  induction s as [|c s IH]; [done|]. by rewrite rev_cons, rev_append, IH.
Qed.

(** A string made of characters of [ws] only. *)
Inductive blank (ws : list string) : string -> Prop :=
  | blank_nil : blank ws ""
  | blank_cons sp rest : In sp ws -> blank ws rest -> blank ws (sp +:+ rest).

Lemma blank_app ws l1 l2 : blank ws l1 -> blank ws l2 -> blank ws (l1 +:+ l2).
Proof.
  induction 1 as [|sp rest Hsp _ IH]; intros Hl2; [done|].
  rewrite append_assoc. constructor; auto.
Qed.

Lemma blank_rev ws l : blank (List.map String.rev ws) l -> blank ws (String.rev l).
Proof.
  induction 1 as [|sp' rest Hsp _ IH]; [constructor|].
  apply in_map_iff in Hsp as (sp & <- & Hsp).
  rewrite rev_append, rev_rev. apply blank_app; [done|].
  rewrite <- (append_nil_r sp). by repeat constructor.
Qed.

Lemma strip_front_skip ws a : forall rest,
  Str.strip_front ws (String.length a) (a +:+ rest) = Str.strip_front ws 0 rest.
Proof.
  induction a as [|c a IH]; intros rest; [done|].
  rewrite append_cons. simpl. apply IH.
Qed.

Lemma strip_front_unfold ws c s :
  Str.strip_front ws 0 (String c s) =
  match List.find (fun sp => String.prefix sp (String c s)) ws with
  | Some sp => Str.strip_front ws (Nat.pred (String.length sp)) s
  | None => String c s
  end.
Proof. reflexivity. Qed.

Lemma strip_front_found ws s sp :
  List.find (fun sp => String.prefix sp s) ws = Some sp -> sp <> "" ->
  exists rest, s = sp +:+ rest /\ Str.strip_front ws 0 s = Str.strip_front ws 0 rest.
Proof.
  intros Hfind Hsp. destruct (find_some _ _ Hfind) as [_ Hp].
  apply prefix_split in Hp as [rest Hs]. exists rest. split; [done|].
  destruct sp as [|c sp]; [done|]. rewrite append_cons in Hs. subst s.
  rewrite strip_front_unfold, Hfind. simpl. apply strip_front_skip.
Qed.

(** What [strip_front] takes off is made of characters of [ws], and what
    it leaves starts with none. *)
Lemma strip_front_spec ws :
  (forall sp, In sp ws -> sp <> "") ->
  forall n s, String.length s <= n ->
  exists l,
    s = l +:+ Str.strip_front ws 0 s /\ blank ws l /\
    forall sp, In sp ws -> String.prefix sp (Str.strip_front ws 0 s) = false.
Proof.
  intros Hws. induction n as [|n IH]; intros s Hlen.
  - destruct s; simpl in Hlen; [|lia]. exists "". split; [done|].
    split; [constructor|]. intros sp Hin. specialize (Hws sp Hin). by destruct sp.
  - destruct (List.find (fun sp => String.prefix sp s) ws) as [sp|] eqn:Hfind.
    + destruct (find_some _ _ Hfind) as [Hin _].
      destruct (strip_front_found ws s sp Hfind (Hws sp Hin)) as (rest & -> & Heq).
      rewrite Heq. destruct (IH rest) as (l & Hl & Hblank & Hstart).
      { rewrite length_append in Hlen. specialize (Hws sp Hin).
        destruct sp; [done|]. simpl in Hlen. lia. }
      exists (sp +:+ l). split; [by rewrite append_assoc, <- Hl|].
      split; [by constructor | done].
    + assert (Str.strip_front ws 0 s = s) as ->.
      { destruct s; [done|]. by rewrite strip_front_unfold, Hfind. }
      exists "". split; [done|]. split; [constructor|].
      intros sp Hin. by apply (find_none _ _ Hfind).
Qed.

(** [t] is [s] without the white space at its two ends: what is missing
    on either side is white space, and [t] neither starts nor ends with a
    white space character. *)
Definition trimmed (s t : string) : Prop :=
  exists l r,
    s = l +:+ t +:+ r /\
    blank Str.whitespace l /\ blank Str.whitespace r /\
    forall sp, In sp Str.whitespace ->
      String.prefix sp t = false /\ Str.endswith t sp = false.

Lemma whitespace_nonempty sp : In sp Str.whitespace -> sp <> "".
Proof.
  intros Hin.
  assert (forallb Str.truthy Str.whitespace = true) as Hall by reflexivity.
  apply (proj1 (forallb_forall _ _) Hall) in Hin. by destruct sp.
Qed.

Lemma whitespace_rev_nonempty sp :
  In sp (List.map String.rev Str.whitespace) -> sp <> "".
Proof.
  intros Hin.
  assert (forallb Str.truthy (List.map String.rev Str.whitespace) = true)
    as Hall by reflexivity.
  apply (proj1 (forallb_forall _ _) Hall) in Hin. by destruct sp.
Qed.

Lemma strip_trimmed s : trimmed s (Str.strip s).
Proof.
  unfold Str.strip, Str.rstrip, Str.lstrip.
  destruct (strip_front_spec Str.whitespace whitespace_nonempty _ s (le_n _))
    as (l & Hl & Hblank_l & Hstart).
  set (t1 := Str.strip_front Str.whitespace 0 s) in *.
  destruct (strip_front_spec (List.map String.rev Str.whitespace)
              whitespace_rev_nonempty _ (String.rev t1) (le_n _))
    as (l' & Hl' & Hblank_r & Hend).
  set (u := Str.strip_front (List.map String.rev Str.whitespace) 0 (String.rev t1)) in *.
  assert (t1 = String.rev u +:+ String.rev l') as Ht1.
  { by rewrite <- rev_append, <- Hl', rev_rev. }
  exists l, (String.rev l'). split; [by rewrite <- Ht1|].
  split; [done|]. split; [by apply blank_rev|].
  intros sp Hin. split.
  - destruct (String.prefix sp (String.rev u)) eqn:Hp; [|done].
    apply (prefix_longer _ _ (String.rev l')) in Hp.
    rewrite <- Ht1 in Hp. by rewrite (Hstart sp Hin) in Hp.
  - unfold Str.endswith. rewrite rev_rev. apply Hend. by apply in_map.
Qed.

End trimming.

(** C7.  When the server accepts the request, [run_ollama_summary] returns
    the pieces of the fragments joined in the order of arrival, without
    the white space at the two ends of the whole: up to and including the
    first fragment that is done, whatever follows it, or all of them when
    none is done and the stream ends.  For the three fragments Hel, lo and
    the empty done one, that is Hello. *)
Theorem run_ollama_summary_concatenates (E : env) (model context : option string)
    (text : string) (w : world) (r : response)
    (Hpost : requests_post E generate_url model (make_prompt context text) = Return r)
    (Hstatus : ~ error_status r) :
  (forall l1 l2 l3,
     body_lines r = [l1; l2; l3] ->
     Forall (fun l => Str.truthy l = true) [l1; l2; l3] ->
     json_loads E l1 = Return (JObj [("response", JStr "Hel"); ("done", JBool false)]) ->
     json_loads E l2 = Return (JObj [("response", JStr "lo"); ("done", JBool false)]) ->
     json_loads E l3 = Return (JObj [("response", JStr ""); ("done", JBool true)]) ->
     fst (run_ollama_summary E model context text w) = Return "Hello") /\
  (forall lines pieces last piece rest,
     body_lines r = lines ++ last :: rest ->
     open_fragments E lines pieces ->
     is_fragment E last piece true ->
     fst (run_ollama_summary E model context text w)
     = Return (Str.strip (join (pieces ++ [piece]))) /\
     trimmed (join (pieces ++ [piece])) (Str.strip (join (pieces ++ [piece])))) /\
  (forall pieces,
     open_fragments E (body_lines r) pieces ->
     read_error r = None ->
     fst (run_ollama_summary E model context text w) = Return (Str.strip (join pieces)) /\
     trimmed (join pieces) (Str.strip (join pieces))).
Proof.
  assert (Hdone : forall lines pieces last piece rest,
     body_lines r = lines ++ last :: rest ->
     open_fragments E lines pieces ->
     is_fragment E last piece true ->
     fst (run_ollama_summary E model context text w)
     = Return (Str.strip (join (pieces ++ [piece])))).
  { intros lines pieces last piece rest Hlines Hopen Hlast.
    rewrite (run_ollama_summary_stream E _ _ _ w _ Hpost Hstatus), Hlines.
    rewrite (consume_open E _ _ Hopen), (consume_fragment E _ _ _ _ _ _ Hlast).
    simpl. rewrite join_app. simpl. by rewrite append_nil_r. }
  split; [|split].
  - intros l1 l2 l3 Hlines Hne H1 H2 H3.
    apply Forall_cons in Hne as [Hn1 Hne]. apply Forall_cons in Hne as [Hn2 Hne].
    apply Forall_cons in Hne as [Hn3 _].
    rewrite (Hdone [l1; l2] ["Hel"; "lo"] l3 "" [] Hlines); [by vm_compute| |].
    + apply open_fragment; [by split; eauto|].
      apply open_fragment; [by split; eauto|]. apply open_end.
    + by split; eauto.
  - intros lines pieces last piece rest Hlines Hopen Hlast.
    split; [by eapply Hdone | apply strip_trimmed].
  - intros pieces Hopen Hend. split; [|apply strip_trimmed].
    rewrite (run_ollama_summary_stream E _ _ _ w _ Hpost Hstatus).
    rewrite <- (app_nil_r (body_lines r)) at 1.
    rewrite (consume_open E _ _ Hopen). simpl. by rewrite Hend.
Qed.

Lemma run_ollama_summary_concatenates_witness :
  fst (run_ollama_summary (Demo.streaming "meeting.mp3" 0 Demo.hello_lines None)
         (Some "llama3") None "Hello everyone." Demo.start) = Return "Hello".
Proof.
  assert (Hstatus : ~ error_status (Demo.ok_response Demo.hello_lines None))
    by (unfold error_status; simpl; lia).
  apply (proj1 (run_ollama_summary_concatenates
                  (Demo.streaming "meeting.mp3" 0 Demo.hello_lines None) (Some "llama3") None
                  "Hello everyone." Demo.start _ eq_refl Hstatus)
           (Demo.fragment_line "Hel" false)
           (Demo.fragment_line "lo" false)
           (Demo.fragment_line "" true)).
  - reflexivity.
  - repeat constructor.
  - reflexivity.
  - reflexivity.
  - reflexivity.
Defined.

(** A stream with a line that is not JSON between the fragments of Hello:
    the summary is the failure message, not Hello. *)
Lemma run_ollama_summary_malformed_line :
  let out := fst (run_ollama_summary
                    (Demo.streaming "meeting.mp3" 0
                       [Demo.fragment_line "Hel" false; "<html>502</html>";
                        Demo.fragment_line "lo" false; Demo.fragment_line "" true] None)
                    (Some "llama3") None "Hello everyone." Demo.start) in
  out = Return "⚠️ Failed to generate summary: Expecting value: line 1 column 1 (char 0)" /\
  out <> Return "Hello".
Proof. split; [by vm_compute | by vm_compute]. Qed.

(** C8, as the code has it.  When the server accepts the request, empty
    lines are skipped: the result is the one for the stream without them.
    A line that is not empty and that the decoder rejects ends the loop:
    after fragments that are not done, the summary returned is the failure
    message made from the decoder's exception, and nothing is raised. *)
Theorem run_ollama_summary_skips_empty_lines (E : env) (model context : option string)
    (text : string) (w : world) (r : response)
    (Hpost : requests_post E generate_url model (make_prompt context text) = Return r)
    (Hstatus : ~ error_status r) :
  fst (run_ollama_summary E model context text w)
  = Return (summary_of
              (consume E "" (List.filter Str.truthy (body_lines r)) (read_error r))) /\
  (forall lines pieces bad rest e,
     body_lines r = lines ++ bad :: rest ->
     open_fragments E lines pieces ->
     Str.truthy bad = true ->
     json_loads E bad = Raise e ->
     fst (run_ollama_summary E model context text w) = Return (summary_failure e)).
Proof.
  rewrite (run_ollama_summary_stream E _ _ _ w _ Hpost Hstatus). simpl. split.
  - by rewrite <- consume_filter.
  - intros lines pieces bad rest e Hlines Hopen Hbad Hload.
    rewrite Hlines, (consume_open E _ _ Hopen).
    by rewrite (consume_malformed E _ _ _ _ _ Hbad Hload).
Qed.

Lemma run_ollama_summary_skips_empty_lines_witness :
  fst (run_ollama_summary
         (Demo.streaming "meeting.mp3" 0 [""; Demo.fragment_line "Hel" false; ""; "lo"] None)
         (Some "llama3") None "Hello everyone." Demo.start)
  = Return (summary_failure (JSONDecodeError "Expecting value: line 1 column 1 (char 0)")).
Proof.
  assert (Hstatus : ~ error_status
            (Demo.ok_response [""; Demo.fragment_line "Hel" false; ""; "lo"] None))
    by (unfold error_status; simpl; lia).
  apply (proj2 (run_ollama_summary_skips_empty_lines
                  (Demo.streaming "meeting.mp3" 0 [""; Demo.fragment_line "Hel" false; ""; "lo"] None)
                  (Some "llama3") None "Hello everyone." Demo.start _ eq_refl Hstatus)
           [""; Demo.fragment_line "Hel" false; ""] ["Hel"] "lo" []).
  - reflexivity.
  - apply open_empty, open_fragment; [|apply open_empty, open_end].
    split; [reflexivity|]. eexists. split; [reflexivity|]. split; reflexivity.
  - reflexivity.
  - reflexivity.
Defined.

(** ** The pipeline *)

(** A call with an audio path stops at the [with] statement, the world
    as it was. *)
Lemma transcribe_and_summarize_stops E path context whisper_model llm_model w :
  Str.truthy path = true ->
  transcribe_and_summarize E (Some path) context whisper_model llm_model w
  = (Raise with_error, w).
Proof. intros Hpath. unfold transcribe_and_summarize. by rewrite Hpath. Qed.

(** How many times [path] was handed to [os.remove]. *)
Definition removals (path : string) (tr : list event) : nat :=
  length (List.filter
            (fun ev => match ev with Remove p => String.eqb p path | _ => false end) tr).



(** The transcript path a run returned, if it returned one. *)
Definition returned_path (r : result (string * option string)) : option string :=
  match r with
  | Return (_, p) => p
  | Raise _ => None
  end.

(** C1.  The normalized audio is not removed once, nor made: in a run
    where ffmpeg, whisper.cpp and the server would all do their part, the
    call raises at the [with] statement; nothing was executed, [os.remove]
    was not called, and there is no normalized audio. *)
Theorem normalized_audio_never_removed :
  let E := Demo.streaming "meeting.mp3" 0 Demo.hello_lines None in
  let run :=
    transcribe_and_summarize E (Some "meeting.mp3") None (Some "base") (Some "llama3")
      Demo.start in
  fst (shell E (ffmpeg_cmd "meeting.mp3") (files Demo.start)) = 0%Z /\
  fst run
  = Raise (TypeError "'Progress' object does not support the context manager protocol") /\
  trace (snd run) = [] /\
  removals (clean_path "meeting.mp3") (trace (snd run)) = 0%nat /\
  files (snd run) !! clean_path "meeting.mp3" = None.
Proof. repeat split; by vm_compute. Qed.

(** X2.  [run_ollama_summary] never raises: whatever the server and the
    decoder do, it returns a string, and it has sent one POST. *)
Theorem run_ollama_summary_never_raises (E : env) (model context : option string)
    (text : string) (w : world) :
  exists summary,
    run_ollama_summary E model context text w =
      (Return summary,
       World (files w) (models_dir w)
         (trace w ++ [HttpPost (OLLAMA_URL +:+ "/api/generate") model
                        (make_prompt context text)])).
Proof. exists (summary_text E model context text). apply run_ollama_summary_eq. Qed.

(** C2.  The failure message of the summary is not returned: in a run
    where ffmpeg and whisper.cpp would exit with status 0 and the server
    refuses the connection, the call raises at the [with] statement; it
    returns no message and no transcript path, and has sent no request. *)
Theorem summary_failure_not_reached :
  let E := Demo.offline "meeting.mp3" 0 in
  let run :=
    transcribe_and_summarize E (Some "meeting.mp3") None (Some "base") (Some "llama3")
      Demo.start in
  requests_post E generate_url (Some "llama3") (make_prompt None "Hello everyone.")
  = Raise (ConnectionError "Connection refused") /\
  fst run
  = Raise (TypeError "'Progress' object does not support the context manager protocol") /\
  returned_path (fst run) = None /\
  trace (snd run) = [].
Proof. repeat split; by vm_compute. Qed.

(** C3.  Without an audio path ([None], or the empty string) the call
    returns the upload message and no transcript path, and leaves the world
    as it was: nothing was executed, requested or removed. *)
Theorem no_audio_no_stage (E : env) (context whisper_model llm_model : option string)
    (w : world) :
  transcribe_and_summarize E None context whisper_model llm_model w
    = (Return ("❌ Please upload an audio file.", None), w) /\
  transcribe_and_summarize E (Some "") context whisper_model llm_model w
    = (Return ("❌ Please upload an audio file.", None), w).
Proof. split; reflexivity. Qed.





(** * More of the program *)

(** ** The [with] statement *)

(** X3.  A call with an audio path raises the error of the [with]
    statement and leaves the world as it was: no command was run, no
    request sent, no progress reported, no file removed.  This is so
    whatever the shell and the server would have answered. *)
Theorem run_stops_at_with (E : env) (path : string)
    (context whisper_model llm_model : option string) (w : world)
    (Hpath : Str.truthy path = true) :
  transcribe_and_summarize E (Some path) context whisper_model llm_model w
  = (Raise (TypeError "'Progress' object does not support the context manager protocol"),
     w).
Proof. by apply transcribe_and_summarize_stops. Qed.

Lemma run_stops_at_with_witness :
  transcribe_and_summarize (Demo.offline "meeting.mp3" 0) (Some "meeting.mp3")
    (Some "weekly") (Some "base") None Demo.start
  = (Raise (TypeError "'Progress' object does not support the context manager protocol"),
     Demo.start).
Proof.
  exact (run_stops_at_with (Demo.offline "meeting.mp3" 0) "meeting.mp3"
           (Some "weekly") (Some "base") None Demo.start eq_refl).
Defined.

(** ** The path of the normalized audio *)

Section clean_path_facts.

Lemma substring_whole s : String.substring 0 (String.length s) s = s.
Proof. induction s as [|c s IH]; [done|]. simpl. by rewrite IH. Qed.

Lemma take_drop n : forall s, Str.take n s +:+ Str.drop n s = s.
Proof.
  unfold Str.take, Str.drop.
  induction n as [|n IH]; intros [|c s]; simpl; try done.
  - by rewrite substring_whole.
  - rewrite append_cons. f_equal. apply IH.
Qed.

Lemma drop_get n c : forall s,
  String.get n s = Some c -> exists rest, Str.drop n s = String c rest.
Proof.
  unfold Str.drop. induction n as [|n IH]; intros [|a s] Hget; simpl in *; try done.
  - injection Hget as ->. eauto.
  - by apply IH.
Qed.

Lemma get_drop n : forall s k, String.get k (Str.drop n s) = String.get (n + k) s.
Proof.
  unfold Str.drop. induction n as [|n IH]; intros s k.
  - by rewrite Nat.sub_0_r, substring_whole.
  - destruct s as [|a s]; simpl; [by destruct k|]. apply IH.
Qed.

(** [rfind] answers -1 or the index of an occurrence, and none follows it. *)
Lemma rfind_from_found c s : forall i last,
  Str.rfind_from c s i last = last \/
  (i <= Str.rfind_from c s i last)%Z /\
  String.get (Z.to_nat (Str.rfind_from c s i last - i)) s = Some c.
Proof.
  induction s as [|a s IH]; intros i last; simpl; [by left|].
  destruct (IH (i + 1)%Z (if Ascii.eqb a c then i else last)) as [Heq|[Hle Hget]].
  - rewrite Heq. destruct (Ascii.eqb_spec a c) as [->|_]; [right|by left].
    split; [lia|]. by rewrite Z.sub_diag.
  - right. split; [lia|].
    replace (Z.to_nat (Str.rfind_from c s (i + 1) (if Ascii.eqb a c then i else last) - i))
      with (S (Z.to_nat (Str.rfind_from c s (i + 1)
                           (if Ascii.eqb a c then i else last) - (i + 1)))) by lia.
    done.
Qed.

Lemma rfind_from_last c s : forall i last (j : nat),
  (last < i)%Z -> (Str.rfind_from c s i last < i + Z.of_nat j)%Z ->
  String.get j s <> Some c.
Proof.
  induction s as [|a s IH]; intros i last j Hlast Hlt; simpl in *; [by destruct j|].
  destruct j as [|j].
  - intros [= ->]. rewrite Ascii.eqb_refl in Hlt.
    destruct (rfind_from_found c s (i + 1)%Z i) as [Heq|[Hle _]]; lia.
  - apply (IH (i + 1)%Z (if Ascii.eqb a c then i else last)); [|lia].
    destruct (Ascii.eqb a c); lia.
Qed.

Lemma contains_get c : forall s,
  Str.contains (String c EmptyString) s = true -> exists k, String.get k s = Some c.
Proof.
  induction s as [|a s IH]; simpl; [done|].
  destruct (ascii_dec c a) as [->|_]; simpl.
  - intros _. by exists 0%nat.
  - intros [k Hk]%IH. by exists (S k).
Qed.

(** The root and the extension make up the path; the extension is empty
    or starts with a dot, and has no slash. *)
Lemma splitext_parts p :
  fst (Path.splitext p) +:+ snd (Path.splitext p) = p /\
  (snd (Path.splitext p) = EmptyString \/
   exists e, snd (Path.splitext p) = String "."%char e) /\
  Str.contains "/" (snd (Path.splitext p)) = false.
Proof.
  unfold Path.splitext.
  destruct ((Str.rfind "/"%char p <? Str.rfind "."%char p)%Z &&
            Path.has_non_dot p (Z.to_nat (Str.rfind "/"%char p + 1))
              (Z.to_nat (Str.rfind "."%char p - (Str.rfind "/"%char p + 1)))) eqn:Hsplit;
    simpl; [|by rewrite append_nil_r; auto].
  apply andb_prop in Hsplit as [Hlt%Z.ltb_lt _].
  split; [apply take_drop|].
  unfold Str.rfind in *.
  destruct (rfind_from_found "."%char p 0 (-1)) as [Heq|[Hle Hget]].
  { destruct (rfind_from_found "/"%char p 0 (-1)) as [Hs|[Hs _]]; lia. }
  rewrite Z.sub_0_r in Hget. split.
  - right. by apply drop_get.
  - destruct (Str.contains "/" (Str.drop _ p)) eqn:Hc; [|done].
    apply contains_get in Hc as [k Hk]. rewrite get_drop in Hk.
    apply (rfind_from_last "/"%char p 0 (-1)) in Hk; [done|lia|lia].
Qed.

End clean_path_facts.

Lemma clean_path_not_input path : clean_path path <> path.
Proof.
  destruct (splitext_parts path) as (Hjoin & Hext & _).
  unfold clean_path. intros Heq. rewrite <- Hjoin in Heq at 2.
  apply (inj (String.append _)) in Heq.
  destruct Hext as [Hext|[e Hext]]; rewrite Hext in Heq; discriminate.
Qed.

(** X4.  The normalized audio is never the input: its path is the input
    without its extension, followed by [_clean.wav]; the extension taken
    off is empty or starts with a dot and has no slash, so the normalized
    audio is written in the directory of the input. *)
Theorem clean_path_beside_input (path : string) :
  clean_path path <> path /\
  exists root ext,
    path = root +:+ ext /\
    clean_path path = root +:+ "_clean.wav" /\
    (ext = EmptyString \/ exists e, ext = String "."%char e) /\
    Str.contains "/" ext = false.
Proof.
  split; [apply clean_path_not_input|].
  destruct (splitext_parts path) as (Hjoin & Hext & Hslash).
  by exists (fst (Path.splitext path)), (snd (Path.splitext path)).
Qed.

(** ** The prompt *)

Lemma contains_unfold needle hay :
  Str.contains needle hay =
  String.prefix needle hay ||
  match hay with
  | EmptyString => false
  | String _ hay' => Str.contains needle hay'
  end.
Proof. by destruct hay. Qed.

Lemma contains_head s rest : Str.contains s (s +:+ rest) = true.
Proof. by rewrite contains_unfold, prefix_append. Qed.

Lemma contains_later s front : forall rest,
  Str.contains s rest = true -> Str.contains s (front +:+ rest) = true.
Proof.
  induction front as [|c front IH]; intros rest Hin; [done|].
  rewrite append_cons, contains_unfold, (IH _ Hin). apply orb_true_r.
Qed.

(** X8.  The prompt holds the whole transcript, and the context when one
    is given.  An empty context counts as none: both give the same prompt,
    which holds the placeholder sentence. *)
Theorem prompt_holds_transcript (context : option string) (text : string) :
  Str.contains text (make_prompt context text) = true /\
  (forall c, context = Some c -> Str.truthy c = true ->
     Str.contains c (make_prompt context text) = true) /\
  make_prompt (Some "") text = make_prompt None text /\
  Str.contains "No additional context provided." (make_prompt None text) = true.
Proof.
  split; [|split; [|split]].
  - unfold make_prompt. do 10 apply contains_later. apply contains_head.
  - intros c -> Hc. unfold make_prompt, Py.or_else. rewrite Hc.
    do 5 apply contains_later. apply contains_head.
  - reflexivity.
  - unfold make_prompt, Py.or_else. do 5 apply contains_later. apply contains_head.
Qed.

Lemma prompt_holds_transcript_witness :
  Str.contains "weekly" (make_prompt (Some "weekly") "Hello everyone.") = true.
Proof.
  exact (proj1 (proj2 (prompt_holds_transcript (Some "weekly") "Hello everyone."))
           "weekly" eq_refl eq_refl).
Defined.

(** ** More on the Ollama models *)

Lemma result_map_missing_model objs :
  Exists (fun o => Py.assoc "model" o = None) objs ->
  result_map (fun m => Py.getitem m "model") (List.map JObj objs)
  = Raise (KeyError "model").
Proof.
  induction objs as [|o objs IH]; intros Hex; inv Hex; simpl.
  - match goal with H : Py.assoc _ _ = None |- _ => by rewrite H end.
  - destruct (Py.assoc "model" o); [|done]. simpl. by rewrite IH.
Qed.

Lemma list_ollama_models_world (E : env) (w : world) :
  files (snd (list_ollama_models E w)) = files w /\
  models_dir (snd (list_ollama_models E w)) = models_dir w /\
  (trace (snd (list_ollama_models E w)) = trace w ++ [HttpGet tags_url] \/
   exists e, list_ollama_models E w = (Return [], tags_warning w e)).
Proof.
  unfold list_ollama_models, try_except, bind, http_get, print, emit, lift, ret,
    tags_warning, tags_url.
  simpl.
  destruct (requests_get E _) as [r|e]; simpl;
    [destruct (raise_for_status r) as [[]|e]; simpl;
     [destruct (json_body r) as [data|e]; simpl;
      [destruct (Py.get data "models" (JArr [])) as [models|e]; simpl;
       [destruct (Py.iter models) as [ms|e]; simpl;
        [destruct (result_map _ ms) as [vals|e]; simpl|]|]|]|]|];
    (split; [done|]); (split; [done|]);
    try (by left); right; exists e; by rewrite <- app_assoc.
Qed.

(** X9.  [list_ollama_models] sends one GET and does not try again; it
    leaves the files alone.  Either that request is all it adds to the
    trace, or it also prints one warning, and then it returns the empty
    list. *)
Theorem list_ollama_models_one_request (E : env) (w : world) :
  files (snd (list_ollama_models E w)) = files w /\
  models_dir (snd (list_ollama_models E w)) = models_dir w /\
  (trace (snd (list_ollama_models E w))
   = trace w ++ [HttpGet (OLLAMA_URL +:+ "/api/tags")] \/
   exists e,
     list_ollama_models E w =
       (Return [],
        World (files w) (models_dir w)
          (trace w ++ [HttpGet (OLLAMA_URL +:+ "/api/tags");
                       Print ("⚠️ Could not retrieve Ollama models: " +:+ exn_str e)]))).
Proof. apply list_ollama_models_world. Qed.

(** X10.  An accepted answer whose object has no [models] gives the empty
    list, without a warning.  An answer in which one entry of [models] has
    no [model] gives the empty list too, with the warning of the key error:
    the entries that had one are dropped with it. *)
Theorem list_ollama_models_missing_keys (E : env) (w : world) (r : response)
    (items : list (string * json))
    (Hget : requests_get E tags_url = Return r)
    (Hstatus : ~ error_status r)
    (Hbody : json_body r = Return (JObj items)) :
  (Py.assoc "models" items = None ->
   list_ollama_models E w =
     (Return [], World (files w) (models_dir w) (trace w ++ [HttpGet tags_url]))) /\
  (forall objs,
     Py.assoc "models" items = Some (JArr (List.map JObj objs)) ->
     Exists (fun o => Py.assoc "model" o = None) objs ->
     list_ollama_models E w = (Return [], tags_warning w (KeyError "model"))).
Proof.
  apply raise_for_status_ok in Hstatus. split.
  - intros Hmodels.
    unfold list_ollama_models, try_except, bind, http_get, emit, lift.
    simpl. fold tags_url. rewrite Hget, Hstatus, Hbody. simpl. by rewrite Hmodels.
  - intros objs Hmodels Hmissing.
    unfold list_ollama_models, try_except, bind, http_get, emit, lift.
    simpl. fold tags_url. rewrite Hget, Hstatus, Hbody. simpl. rewrite Hmodels. simpl.
    rewrite (result_map_missing_model _ Hmissing). unfold tags_warning. simpl.
    by rewrite <- app_assoc.
Qed.

Definition partial_tags : response :=
  Response 200 "OK" tags_url
    (Return (JObj [("models",
       JArr (List.map JObj [[("name", JStr "llama3:latest"); ("model", JStr "llama3:latest")];
                            [("name", JStr "mistral:7b")]]))]))
    [] None.

Lemma list_ollama_models_missing_keys_witness :
  list_ollama_models
    (Env (Demo.shell "meeting.mp3" 0) (fun _ => Return partial_tags)
         (fun _ _ _ => Raise (ConnectionError "Connection refused")) Demo.loads)
    Demo.start
  = (Return [], tags_warning Demo.start (KeyError "model")).
Proof.
  assert (Hstatus : ~ error_status partial_tags) by (unfold error_status; simpl; lia).
  apply (proj2 (list_ollama_models_missing_keys
                  (Env (Demo.shell "meeting.mp3" 0) (fun _ => Return partial_tags)
                       (fun _ _ _ => Raise (ConnectionError "Connection refused"))
                       Demo.loads)
                  Demo.start partial_tags _ eq_refl Hstatus eq_refl)
           [[("name", JStr "llama3:latest"); ("model", JStr "llama3:latest")];
            [("name", JStr "mistral:7b")]]).
  - reflexivity.
  - apply Exists_cons_tl, Exists_cons_hd. reflexivity.
Defined.

(** ** More on the whisper models *)

Lemma prefix_shorter a b : forall s,
  String.prefix (a +:+ b) s = true -> String.prefix a s = true.
Proof.
  induction a as [|c a IH]; intros s; [by destruct s|].
  rewrite append_cons. destruct s as [|d s]; simpl; [done|].
  destruct (ascii_dec c d); [apply IH | done].
Qed.

Lemma contains_shorter a b : forall s,
  Str.contains (a +:+ b) s = true -> Str.contains a s = true.
Proof.
  induction s as [|d s IH]; rewrite !(contains_unfold _ (String d s)) || idtac.
  - rewrite !contains_unfold, !orb_false_r. apply prefix_shorter.
  - intros [Hp|Hc]%orb_prop; apply orb_true_iff;
      [left; by apply (prefix_shorter a b) | right; by apply IH].
Qed.

(** Two characters that are the same letter: equal, or a capital A to Z
    and its small letter. *)
Definition same_letter (a b : ascii) : Prop :=
  let m := Ascii.N_of_ascii a in
  let n := Ascii.N_of_ascii b in
  m = n \/ (65 <= m <= 90 /\ n = m + 32)%N \/ (65 <= n <= 90 /\ m = n + 32)%N.

Inductive same_letters : string -> string -> Prop :=
  | same_letters_nil : same_letters "" ""
  | same_letters_cons a b s t :
      same_letter a b -> same_letters s t -> same_letters (String a s) (String b t).

Lemma lower_char_code c :
  Ascii.N_of_ascii (Str.lower_char c) =
  if ((65 <=? Ascii.N_of_ascii c) && (Ascii.N_of_ascii c <=? 90))%N
  then (Ascii.N_of_ascii c + 32)%N else Ascii.N_of_ascii c.
Proof. by destruct c as [[] [] [] [] [] [] [] []]. Qed.

Lemma ascii_code_inj a b : Ascii.N_of_ascii a = Ascii.N_of_ascii b -> a = b.
Proof.
  intros H. by rewrite <- (Ascii.ascii_N_embedding a), <- (Ascii.ascii_N_embedding b), H.
Qed.

Lemma lower_char_same a b : same_letter a b -> Str.lower_char a = Str.lower_char b.
Proof.
  unfold same_letter. intros H. apply ascii_code_inj. rewrite !lower_char_code.
  destruct (N.leb_spec 65 (Ascii.N_of_ascii a)), (N.leb_spec (Ascii.N_of_ascii a) 90),
    (N.leb_spec 65 (Ascii.N_of_ascii b)), (N.leb_spec (Ascii.N_of_ascii b) 90);
    simpl; lia.
Qed.

Lemma same_letter_lower a : same_letter a (Str.lower_char a).
Proof.
  unfold same_letter. rewrite lower_char_code.
  destruct (N.leb_spec 65 (Ascii.N_of_ascii a)), (N.leb_spec (Ascii.N_of_ascii a) 90);
    simpl; lia.
Qed.

Lemma lower_same s t : same_letters s t -> Str.lower s = Str.lower t.
Proof.
  induction 1 as [|a b s t Hab _ IH]; [done|].
  simpl. by rewrite (lower_char_same a b Hab), IH.
Qed.

Lemma same_letters_lower s : same_letters s (Str.lower s).
Proof.
  induction s as [|a s IH]; simpl; constructor; auto using same_letter_lower.
Qed.

Lemma prefix_lower t : forall s,
  String.prefix t s = true -> String.prefix (Str.lower t) (Str.lower s) = true.
Proof.
  intros s [rest ->]%prefix_split.
  assert (forall a b, Str.lower (a +:+ b) = Str.lower a +:+ Str.lower b) as Happ.
  { induction a as [|c a IH]; intros b; [done|].
    rewrite append_cons. simpl. by rewrite IH, append_cons. }
  rewrite Happ. apply prefix_append.
Qed.

Lemma prefix_lower_inv v : forall s,
  String.prefix v (Str.lower s) = true ->
  exists t, String.prefix t s = true /\ Str.lower t = v.
Proof.
  induction v as [|b v IH]; intros s Hp.
  - exists "". split; [by destruct s | done].
  - destruct s as [|a s]; simpl in Hp; [done|].
    destruct (ascii_dec b (Str.lower_char a)) as [->|]; [|done].
    apply IH in Hp as (t & Ht & <-). exists (String a t). split; [|done].
    simpl. by destruct (ascii_dec a a).
Qed.

Lemma contains_lower t : forall s,
  Str.contains t s = true -> Str.contains (Str.lower t) (Str.lower s) = true.
Proof.
  induction s as [|a s IH]; rewrite contains_unfold; intros Hc;
    rewrite contains_unfold.
  - rewrite orb_false_r in Hc. by rewrite (prefix_lower t "" Hc).
  - apply orb_prop in Hc as [Hp|Hc].
    + by rewrite (prefix_lower t (String a s) Hp).
    + simpl. rewrite (IH Hc). apply orb_true_r.
Qed.

Lemma contains_lower_inv v : forall s,
  Str.contains v (Str.lower s) = true ->
  exists t, Str.contains t s = true /\ Str.lower t = v.
Proof.
  induction s as [|a s IH]; rewrite contains_unfold; intros Hc.
  - rewrite orb_false_r in Hc.
    apply (prefix_lower_inv v "") in Hc as (t & Ht & Hl).
    exists t. split; [|done]. by rewrite contains_unfold, Ht.
  - apply orb_prop in Hc as [Hp|Hc].
    + apply (prefix_lower_inv v (String a s)) in Hp as (t & Ht & Hl).
      exists t. split; [|done]. by rewrite contains_unfold, Ht.
    + simpl in Hc. apply IH in Hc as (t & Ht & Hl).
      exists t. split; [|done]. rewrite contains_unfold, Ht. apply orb_true_r.
Qed.

(** X11.  A name passes the filter of [list_whisper_models] exactly when
    it holds base, small, medium or large somewhere, in capitals, small
    letters or a mix of them.  The large-v3 of the list decides nothing. *)
Theorem is_valid_substring (name : string) :
  is_valid name = true <->
  exists tier t,
    In tier ["base"; "small"; "medium"; "large"] /\
    same_letters t tier /\ Str.contains t name = true.
Proof.
  unfold is_valid. rewrite existsb_exists. split.
  - intros (v & Hv & Hc).
    assert (exists tier, In tier ["base"; "small"; "medium"; "large"] /\
                         Str.contains tier (Str.lower name) = true)
      as (tier & Htier & Hct).
    { unfold valid in Hv. simpl in Hv.
      destruct Hv as [<-|[<-|[<-|[<-|[<-|[]]]]]];
        [exists "base"|exists "small"|exists "medium"|exists "large"|exists "large"];
        (split; [simpl; tauto|]); try done.
      by apply (contains_shorter "large" "-v3"). }
    apply contains_lower_inv in Hct as (t & Ht & Hl).
    exists tier, t. split; [done|]. split; [|done].
    rewrite <- Hl. apply same_letters_lower.
  - intros (tier & t & Htier & Hsame & Hc).
    exists tier. split.
    + unfold valid. simpl in *. tauto.
    + apply contains_lower in Hc. rewrite (lower_same _ _ Hsame) in Hc.
      replace (Str.lower tier) with tier in Hc; [done|].
      simpl in Htier. by destruct Htier as [<-|[<-|[<-|[<-|[]]]]].
Qed.

Lemma is_valid_substring_witness : is_valid "GGML-Large.V3" = true.
Proof.
  apply (proj2 (is_valid_substring "GGML-Large.V3")).
  exists "large", "Large". split; [simpl; tauto|]. split; [|reflexivity].
  repeat constructor; unfold same_letter; simpl; lia.
Defined.

Lemma collect_length entries : forall models,
  length (fold_left collect_model entries models)
  <= length models
     + length (List.filter (fun f => Str.endswith f ".bin" && is_valid (model_name f))
                 entries).
Proof.
  induction entries as [|f entries IH]; intros models; simpl; [lia|].
  etrans; [apply IH|]. unfold collect_model.
  destruct (Str.endswith f ".bin"); simpl; [|lia].
  destruct (is_valid (model_name f)); simpl; [|lia].
  rewrite length_app. simpl. lia.
Qed.

Lemma sorted_set_length models : length (sorted_set models) <= length models.
Proof.
  unfold sorted_set. rewrite merge_sort_Permutation.
  apply submseteq_length, NoDup_submseteq; [apply NoDup_elements|].
  intros x. by rewrite elem_of_elements, elem_of_list_to_set.
Qed.

(** X12.  [list_whisper_models] never lists more names than the directory
    has entries that end in [.bin] and pass the filter; it lists none when
    there is no such entry. *)
Theorem list_whisper_models_bounded (fs : gmap string file) (entries : list string)
    (tr : list event) :
  exists names,
    fst (list_whisper_models (World fs (Folder entries) tr)) = Return names /\
    length names
    <= length (List.filter (fun f => Str.endswith f ".bin" && is_valid (model_name f))
                 entries) /\
    length names <= length entries.
Proof.
  eexists. split; [by rewrite list_whisper_models_Folder|].
  assert (length (sorted_set (fold_left collect_model entries []))
          <= length (List.filter
                       (fun f => Str.endswith f ".bin" && is_valid (model_name f)) entries))
    as Hle.
  { etrans; [apply sorted_set_length|]. apply (collect_length entries []). }
  split; [done|]. etrans; [apply Hle|]. apply List.filter_length_le.
Qed.

(** ** The dropdowns of the interface *)

Lemma sorted_head_least (names : list string) v :
  StronglySorted String.le names -> first_or_none names = Some v ->
  forall x, x ∈ names -> String.le v x.
Proof.
  intros Hsorted Hfirst x Hx. destruct names as [|n names]; [done|].
  injection Hfirst as ->. apply StronglySorted_cons in Hsorted as [Hall _].
  apply elem_of_cons in Hx as [->|Hx]; [done|].
  by apply (proj1 (Forall_forall _ _) Hall).
Qed.

(** X13.  When the models directory can be listed, the interface gets its
    dropdowns whatever the Ollama server does.  The whisper dropdown
    starts with no value exactly when no entry of the directory names a
    model, and otherwise with the least of its choices.  The Ollama
    dropdown starts with its first choice, and with [None] when it has no
    choices. *)
Theorem launch_ui_dropdowns_defaults (E : env) (fs : gmap string file)
    (entries : list string) (tr : list event) :
  exists d w',
    launch_ui_dropdowns E (World fs (Folder entries) tr) = (Return d, w') /\
    (whisper_value d = None <-> forall f x, f ∈ entries -> ~ names_model f x) /\
    (forall v, whisper_value d = Some v ->
       v ∈ whisper_choices d /\ forall x, x ∈ whisper_choices d -> String.le v x) /\
    (llm_choices d = [] -> llm_value d = JNull) /\
    (forall m rest, llm_choices d = m :: rest -> llm_value d = m).
Proof.
  destruct (list_ollama_models_total E (World fs (Folder entries) tr))
    as (ollama_models & w1 & Hollama).
  assert (models_dir w1 = Folder entries) as Hdir.
  { pose proof (list_ollama_models_world E (World fs (Folder entries) tr))
      as (_ & H & _).
    by rewrite Hollama in H. }
  destruct w1 as [fs1 dir1 tr1]. simpl in Hdir. subst dir1.
  eexists _, _. split.
  { unfold launch_ui_dropdowns, bind at 1. rewrite Hollama.
    unfold bind. rewrite list_whisper_models_Folder. reflexivity. }
  simpl. split; [|split; [|split]].
  - split.
    + intros Hnone f x Hf Hname.
      assert (x ∈ sorted_set (fold_left collect_model entries [])) as Hx.
      { apply elem_of_sorted_set, elem_of_collect. right. by exists f. }
      destruct (sorted_set _); [by apply elem_of_nil in Hx | done].
    + intros Hnone. destruct (sorted_set _) as [|n names] eqn:Hs; [done|].
      assert (n ∈ sorted_set (fold_left collect_model entries [])) as Hn
        by (rewrite Hs; apply list_elem_of_here).
      apply elem_of_sorted_set, elem_of_collect in Hn as [Hn|(f & Hf & Hname)];
        [by apply elem_of_nil in Hn|].
      by destruct (Hnone f n Hf).
  - intros v Hv. split.
    + destruct (sorted_set _); [done|]. injection Hv as ->. apply list_elem_of_here.
    + by apply sorted_head_least; [apply sorted_set_sorted|].
  - by intros ->.
  - by intros m rest ->.
Qed.

(** X14.  Without a models directory the interface still comes up, with a
    whisper dropdown that has no choices and no value.  When the path is
    there but cannot be listed, the error of the listing ends [launch_ui],
    after the request to Ollama has been made. *)
Theorem launch_ui_dropdowns_without_directory (E : env) (fs : gmap string file)
    (tr : list event) :
  (exists d w',
     launch_ui_dropdowns E (World fs Absent tr) = (Return d, w') /\
     whisper_choices d = [] /\ whisper_value d = None) /\
  (forall e, exists w',
     launch_ui_dropdowns E (World fs (Unlistable e) tr) = (Raise e, w') /\
     HttpGet (OLLAMA_URL +:+ "/api/tags") ∈ trace w').
Proof.
  split.
  - destruct (list_ollama_models_total E (World fs Absent tr))
      as (ollama_models & w1 & Hollama).
    pose proof (list_ollama_models_world E (World fs Absent tr)) as (_ & Hdir & _).
    rewrite Hollama in Hdir. destruct w1 as [fs1 dir1 tr1]. simpl in Hdir. subst dir1.
    eexists _, _. split.
    { unfold launch_ui_dropdowns, bind at 1. rewrite Hollama.
      unfold bind. by rewrite list_whisper_models_Absent. }
    by split.
  - intros e.
    destruct (list_ollama_models_total E (World fs (Unlistable e) tr))
      as (ollama_models & w1 & Hollama).
    pose proof (list_ollama_models_world E (World fs (Unlistable e) tr))
      as (_ & Hdir & Htrace).
    rewrite Hollama in Hdir, Htrace. destruct w1 as [fs1 dir1 tr1].
    simpl in Hdir, Htrace. subst dir1.
    exists (World fs1 (Unlistable e) tr1). split.
    + unfold launch_ui_dropdowns, bind at 1. rewrite Hollama.
      unfold bind. by rewrite list_whisper_models_Unlistable.
    + simpl. destruct Htrace as [->|[e' [= _ _ ->]]]; fold tags_url;
        rewrite !elem_of_app, !elem_of_cons; tauto.
Qed.

(** ** Lines that decode to something else than a fragment *)

(** X15.  After fragments that are not done, a line that decodes to
    something else than an object, or to an object whose [response] is not
    a string, ends the loop: the summary returned is the failure message of
    the attribute error, or of the type error, and what was accumulated is
    dropped. *)
Theorem run_ollama_summary_odd_line (E : env) (model context : option string)
    (text : string) (w : world) (r : response)
    (lines pieces : list string) (line : string) (rest : list string) (data : json)
    (Hpost : requests_post E generate_url model (make_prompt context text) = Return r)
    (Hstatus : ~ error_status r)
    (Hlines : body_lines r = lines ++ line :: rest)
    (Hopen : open_fragments E lines pieces)
    (Hline : Str.truthy line = true)
    (Hload : json_loads E line = Return data) :
  ((forall items, data <> JObj items) ->
   fst (run_ollama_summary E model context text w)
   = Return (summary_failure
               (AttributeError ("'" +:+ Py.type_name data
                                +:+ "' object has no attribute 'get'")))) /\
  (forall items v,
     data = JObj items -> Py.assoc "response" items = Some v ->
     (forall s, v <> JStr s) ->
     exists msg,
       fst (run_ollama_summary E model context text w)
       = Return (summary_failure (TypeError msg))).
Proof.
  rewrite (run_ollama_summary_stream E _ _ _ w _ Hpost Hstatus), Hlines.
  rewrite (consume_open E _ _ Hopen). simpl. rewrite Hline, Hload. simpl. split.
  - intros Hdata. destruct data; try done. by destruct (Hdata items).
  - intros items v -> Hresp Hv. simpl. rewrite Hresp. simpl.
    destruct v; simpl; eauto. by destruct (Hv s).
Qed.

Lemma run_ollama_summary_odd_line_witness :
  fst (run_ollama_summary
         (Env (Demo.shell "meeting.mp3" 0) (fun _ => Return Demo.tags_response)
              (fun _ _ _ => Return (Demo.ok_response ["[1]"] None))
              (fun _ => Return (JArr [JNum 1])))
         (Some "llama3") None "Hello everyone." Demo.start)
  = Return "⚠️ Failed to generate summary: 'list' object has no attribute 'get'".
Proof.
  assert (Hstatus : ~ error_status (Demo.ok_response ["[1]"] None))
    by (unfold error_status; simpl; lia).
  apply (proj1 (run_ollama_summary_odd_line
                  (Env (Demo.shell "meeting.mp3" 0) (fun _ => Return Demo.tags_response)
                       (fun _ _ _ => Return (Demo.ok_response ["[1]"] None))
                       (fun _ => Return (JArr [JNum 1])))
                  (Some "llama3") None "Hello everyone." Demo.start _
                  [] [] "[1]" [] (JArr [JNum 1])
                  eq_refl Hstatus eq_refl (open_end _) eq_refl eq_refl)).
  intros items. discriminate.
Defined.

(** ** From a model file to its name and back *)

Lemma rfind_from_append c a : forall b i last,
  Str.rfind_from c (a +:+ b) i last =
  Str.rfind_from c b (i + Z.of_nat (String.length a)) (Str.rfind_from c a i last).
Proof.
  induction a as [|x a IH]; intros b i last.
  - simpl. by rewrite Z.add_0_r.
  - rewrite append_cons. simpl Str.rfind_from. rewrite IH. f_equal.
    simpl String.length. lia.
Qed.

Lemma rfind_from_none c : forall s i last,
  Str.contains (String c EmptyString) s = false -> Str.rfind_from c s i last = last.
Proof.
  induction s as [|a s IH]; intros i last Hno; [done|].
  rewrite contains_unfold in Hno. apply orb_false_elim in Hno as [Hp Hc].
  simpl in Hp. destruct (ascii_dec c a) as [->|Hne]; [by destruct s|].
  simpl. rewrite (proj2 (Ascii.eqb_neq a c)); [by apply IH | congruence].
Qed.

Lemma take_append a : forall b, Str.take (String.length a) (a +:+ b) = a.
Proof.
  unfold Str.take. induction a as [|x a IH]; intros b.
  - simpl. by destruct b.
  - rewrite append_cons. simpl. by rewrite IH.
Qed.

Lemma replace_from_none old : forall s,
  Str.contains old s = false -> Str.replace_from old EmptyString 0 s = s.
Proof.
  induction s as [|c s IH]; intros Hno; [done|].
  rewrite contains_unfold in Hno. apply orb_false_elim in Hno as [Hp Hc].
  change (Str.replace_from old "" 0 (String c s))
    with (if String.prefix old (String c s)
          then "" +:+ Str.replace_from old "" (Nat.pred (String.length old)) s
          else String c (Str.replace_from old "" 0 s)).
  rewrite Hp. by rewrite IH.
Qed.

Lemma splitext_bin (a : string) :
  Str.contains "/" a = false -> (exists c a', a = String c a' /\ c <> "."%char) ->
  Path.splitext (a +:+ ".bin") = (a, ".bin").
Proof.
  intros Hslash (c & a' & -> & Hc).
  assert (Str.rfind "/"%char (String c a' +:+ ".bin") = (-1)%Z) as Hsep.
  { unfold Str.rfind. rewrite rfind_from_append, (rfind_from_none _ _ _ _ Hslash).
    reflexivity. }
  assert (Str.rfind "."%char (String c a' +:+ ".bin")
          = Z.of_nat (String.length (String c a'))) as Hdot.
  { unfold Str.rfind. rewrite rfind_from_append. reflexivity. }
  unfold Path.splitext. rewrite Hsep, Hdot.
  replace (-1 <? Z.of_nat (String.length (String c a')))%Z with true
    by (symmetry; apply Z.ltb_lt; lia).
  replace (Z.to_nat (Z.of_nat (String.length (String c a')) - (-1 + 1)))
    with (S (String.length a')) by (simpl String.length; lia).
  rewrite append_cons. simpl Path.has_non_dot.
  rewrite (proj2 (Ascii.eqb_neq c "."%char) Hc). simpl andb. cbv iota.
  rewrite Nat2Z.id, <- append_cons. f_equal; [apply take_append|].
  pose proof (take_drop (String.length (String c a')) (String c a' +:+ ".bin")) as Hjoin.
  rewrite take_append in Hjoin. by apply (inj (String.append _)) in Hjoin.
Qed.

Lemma model_name_ggml (name : string) :
  Str.contains "/" name = false -> Str.contains "ggml-" name = false ->
  model_name ("ggml-" +:+ name +:+ ".bin") = name.
Proof.
  intros Hslash Hprefix.
  unfold model_name. rewrite <- append_assoc, splitext_bin.
  - simpl fst. unfold Str.replace.
    change ("ggml-" +:+ name) with
      (String "g" (String "g" (String "m" (String "l" (String "-" name))))).
    simpl Str.replace_from.
    replace (String.prefix "" name) with true by (by destruct name).
    by rewrite replace_from_none.
  - change ("ggml-" +:+ name) with
      (String "g" (String "g" (String "m" (String "l" (String "-" name))))).
    rewrite 5!contains_unfold. simpl. by rewrite Hslash.
  - by exists "g"%char, ("gml-" +:+ name).
Qed.

(** X16.  The name taken from a model file [ggml-<name>.bin] is <name>,
    when <name> has no slash and no further [ggml-] in it, and the command
    line made for that name points whisper.cpp back at that very file. *)
Theorem model_name_round_trip (name wav : string)
    (Hslash : Str.contains "/" name = false)
    (Hprefix : Str.contains "ggml-" name = false) :
  Str.endswith ("ggml-" +:+ name +:+ ".bin") ".bin" = true /\
  model_name ("ggml-" +:+ name +:+ ".bin") = name /\
  exists tail,
    whisper_cmd (Some (model_name ("ggml-" +:+ name +:+ ".bin"))) wav =
    "./whisper.cpp/main -m " +:+ WHISPER_MODELS_DIR +:+ "/"
      +:+ ("ggml-" +:+ name +:+ ".bin") +:+ tail.
Proof.
  pose proof (model_name_ggml name Hslash Hprefix) as Hname.
  split; [|split; [done|]].
  - unfold Str.endswith. rewrite <- append_assoc.
    generalize ("ggml-" +:+ name). intros a.
    assert (forall s acc, String.rev_app (s +:+ ".bin") acc
                          = String.rev_app ".bin" (String.rev_app s acc)) as Hrev.
    { induction s as [|c s IH]; intros acc; [done|]. rewrite append_cons. apply IH. }
    unfold String.rev. rewrite Hrev. simpl.
    destruct (String.rev_app a ""); reflexivity.
  - rewrite Hname. exists (" -f " +:+ Str.dquote +:+ wav +:+ Str.dquote
                           +:+ " > " +:+ Str.dquote +:+ transcript_output +:+ Str.dquote).
    unfold whisper_cmd, Py.format, WHISPER_MODELS_DIR.
    rewrite !append_assoc. reflexivity.
Qed.

Lemma model_name_round_trip_witness :
  model_name ("ggml-" +:+ "small.en" +:+ ".bin") = "small.en".
Proof.
  exact (proj1 (proj2 (model_name_round_trip "small.en" "meeting_clean.wav"
                         eq_refl eq_refl))).
Defined.

(** X17.  The prefix is not required: a file <name>.bin gets the same
    model name as [ggml-<name>.bin], so the command line made for it names
    the file with the prefix, not the file that was found. *)
Theorem model_name_without_prefix (name wav : string)
    (Hslash : Str.contains "/" name = false)
    (Hprefix : Str.contains "ggml-" name = false)
    (Hfirst : exists c rest, name = String c rest /\ c <> "."%char) :
  model_name (name +:+ ".bin") = name /\
  model_name (name +:+ ".bin") = model_name ("ggml-" +:+ name +:+ ".bin") /\
  exists tail,
    whisper_cmd (Some (model_name (name +:+ ".bin"))) wav =
    "./whisper.cpp/main -m " +:+ WHISPER_MODELS_DIR +:+ "/ggml-"
      +:+ (name +:+ ".bin") +:+ tail.
Proof.
  assert (model_name (name +:+ ".bin") = name) as Hname.
  { unfold model_name. rewrite (splitext_bin name Hslash Hfirst). simpl fst.
    destruct Hfirst as (c & rest & -> & _). unfold Str.replace.
    by apply replace_from_none. }
  pose proof (model_name_ggml name Hslash Hprefix) as Hggml.
  split; [done|]. split; [congruence|].
  rewrite Hname. exists (" -f " +:+ Str.dquote +:+ wav +:+ Str.dquote
                         +:+ " > " +:+ Str.dquote +:+ transcript_output +:+ Str.dquote).
  unfold whisper_cmd, Py.format, WHISPER_MODELS_DIR.
  rewrite !append_assoc. reflexivity.
Qed.

Lemma model_name_without_prefix_witness :
  model_name ("base" +:+ ".bin") = model_name ("ggml-" +:+ "base" +:+ ".bin").
Proof.
  apply (model_name_without_prefix "base" "meeting_clean.wav" eq_refl eq_refl).
  exists "b"%char, "ase". by split.
Defined.
